(** * Token lifecycle of the TONE3000 demonstration client

    A shallow embedding of [t3kFetch], [handleAuth] and the handlers
    around them (App.tsx): the browser's [localStorage] is a finite map
    from keys to strings, the clock and the network are an environment
    that answers the n-th clock read and the n-th [fetch], and every
    effect of a call is appended to a trace in program order.

    Strings are byte strings: a JavaScript string is taken in UTF-8.
    Numbers are integers or NaN: a JavaScript number is a double, so an
    integer stands for itself only while it is safe (at most 2^53 - 1 in
    magnitude, [JS.safe]); every statement that depends on the value of
    a sum, a product or a printed number assumes the integers involved
    safe. *)

From Stdlib Require Import ZArith Ascii String List Lia Bool.
From Stdlib Require Import Decimal Hexadecimal DecimalString DecimalPos DecimalZ.
From stdpp Require Import base gmap strings list.

Local Open Scope string_scope.
Local Open Scope list_scope.
Local Open Scope Z_scope.

(* ===================================================================== *)
(** ** JavaScript values the code relies on *)
(* ===================================================================== *)

Module JS.

(** A JavaScript number as far as this program uses one: an integer, or
    NaN.  Integers are exact below 2^53; clock readings (milliseconds
    since the epoch) and lifetimes are far below that. *)
Inductive num := Num (z : Z) | NaN.

(** [Number.MAX_SAFE_INTEGER] and [Number.isSafeInteger]: the integers a
    double holds exactly, on which [+], [*] and [String] are those of the
    integers. *)
Definition MAX_SAFE_INTEGER : Z := 9007199254740991.

Definition safe (z : Z) : Prop :=
  - MAX_SAFE_INTEGER <= z <= MAX_SAFE_INTEGER.

(** [a + b] *)
Definition add (a b : num) : num :=
  match a, b with
  | Num x, Num y => Num (x + y)
  | _, _ => NaN
  end.

(** [a * b] *)
Definition mul (a b : num) : num :=
  match a, b with
  | Num x, Num y => Num (x * y)
  | _, _ => NaN
  end.

(** [a - b] *)
Definition sub (a b : num) : num :=
  match a, b with
  | Num x, Num y => Num (x - y)
  | _, _ => NaN
  end.

(** [a > b]: false as soon as one side is NaN. *)
Definition gt (a b : num) : bool :=
  match a, b with
  | Num x, Num y => y <? x
  | _, _ => false
  end.

(** Truthiness of the result of [localStorage.getItem]: [null] and the
    empty string are falsy. *)
Definition truthy (v : option string) : bool :=
  match v with
  | Some s => negb (String.eqb s EmptyString)
  | None => false
  end.

(** [v || d] on a possibly-null string. *)
Definition or_else (v : option string) (d : string) : string :=
  match v with
  | Some s => if String.eqb s EmptyString then d else s
  | None => d
  end.

(** [String(n)] for an integer: its decimal digits, with a leading minus
    sign when negative. This is what JavaScript prints for a safe
    integer; beyond 2^53 a double need not hold the integer, and from
    10^21 on JavaScript prints an exponent. *)
Definition String_ (z : Z) : string := NilZero.string_of_int (Z.to_int z).

(** [String(n)] for a number. *)
Definition String_num (n : num) : string :=
  match n with
  | Num z => String_ z
  | NaN => "NaN"
  end.

(** White space skipped by [parseInt], the StrWhiteSpaceChar class. Its
    one-byte members: TAB, LF, VT, FF, CR, SP. *)
Definition is_white_space (c : ascii) : bool :=
  let n := N_of_ascii c in
  ((9 <=? n) && (n <=? 13))%N || (n =? 32)%N.

(** U+00A0, in UTF-8 [C2 A0]. *)
Definition is_white_space2 (c1 c2 : ascii) : bool :=
  ((N_of_ascii c1 =? 194) && (N_of_ascii c2 =? 160))%N.

(** The three-byte members: U+1680 [E1 9A 80], U+2000 to U+200A
    [E2 80 80] to [E2 80 8A], U+2028 and U+2029 [E2 80 A8], [E2 80 A9],
    U+202F [E2 80 AF], U+205F [E2 81 9F], U+3000 [E3 80 80] and U+FEFF
    [EF BB BF]. *)
Definition is_white_space3 (c1 c2 c3 : ascii) : bool :=
  let a := N_of_ascii c1 in
  let b := N_of_ascii c2 in
  let c := N_of_ascii c3 in
  ((a =? 225) && (b =? 154) && (c =? 128)
   || (a =? 226) && (b =? 128)
      && (((128 <=? c) && (c <=? 138)) || (c =? 168) || (c =? 169)
          || (c =? 175))
   || (a =? 226) && (b =? 129) && (c =? 159)
   || (a =? 227) && (b =? 128) && (c =? 128)
   || (a =? 239) && (b =? 187) && (c =? 191))%N.

(** A byte that can start a white-space character of several bytes. *)
Definition is_white_space_lead (c : ascii) : bool :=
  let n := N_of_ascii c in
  ((n =? 194) || (n =? 225) || (n =? 226) || (n =? 227) || (n =? 239))%N.

Fixpoint trim_start (s : string) : string :=
  match s with
  | EmptyString => EmptyString
  | String c1 s1 =>
      if is_white_space c1 then trim_start s1
      else if negb (is_white_space_lead c1) then s
      else
        match s1 with
        | EmptyString => s
        | String c2 s2 =>
            if is_white_space2 c1 c2 then trim_start s2
            else
              match s2 with
              | EmptyString => s
              | String c3 s3 =>
                  if is_white_space3 c1 c2 c3 then trim_start s3 else s
              end
        end
  end.

Definition dec_digit (c : ascii) : option (Decimal.uint -> Decimal.uint) :=
  match c with
  | "0"%char => Some Decimal.D0 | "1"%char => Some Decimal.D1
  | "2"%char => Some Decimal.D2 | "3"%char => Some Decimal.D3
  | "4"%char => Some Decimal.D4 | "5"%char => Some Decimal.D5
  | "6"%char => Some Decimal.D6 | "7"%char => Some Decimal.D7
  | "8"%char => Some Decimal.D8 | "9"%char => Some Decimal.D9
  | _ => None
  end.

Definition hex_digit (c : ascii) : option (Hexadecimal.uint -> Hexadecimal.uint) :=
  match c with
  | "0"%char => Some Hexadecimal.D0 | "1"%char => Some Hexadecimal.D1
  | "2"%char => Some Hexadecimal.D2 | "3"%char => Some Hexadecimal.D3
  | "4"%char => Some Hexadecimal.D4 | "5"%char => Some Hexadecimal.D5
  | "6"%char => Some Hexadecimal.D6 | "7"%char => Some Hexadecimal.D7
  | "8"%char => Some Hexadecimal.D8 | "9"%char => Some Hexadecimal.D9
  | "a"%char | "A"%char => Some Hexadecimal.Da
  | "b"%char | "B"%char => Some Hexadecimal.Db
  | "c"%char | "C"%char => Some Hexadecimal.Dc
  | "d"%char | "D"%char => Some Hexadecimal.Dd
  | "e"%char | "E"%char => Some Hexadecimal.De
  | "f"%char | "F"%char => Some Hexadecimal.Df
  | _ => None
  end.

(** The longest prefix of radix digits, most significant first. *)
Fixpoint dec_prefix (s : string) : Decimal.uint :=
  match s with
  | String c s' =>
      match dec_digit c with
      | Some d => d (dec_prefix s')
      | None => Decimal.Nil
      end
  | EmptyString => Decimal.Nil
  end.

Fixpoint hex_prefix (s : string) : Hexadecimal.uint :=
  match s with
  | String c s' =>
      match hex_digit c with
      | Some d => d (hex_prefix s')
      | None => Hexadecimal.Nil
      end
  | EmptyString => Hexadecimal.Nil
  end.

(** [parseInt(s)] with no radix argument: leading white space, an
    optional sign, an optional [0x]/[0X] prefix selecting radix 16, then
    the longest run of digits; NaN when that run is empty. *)
Definition parse_magnitude (sign : Z) (s2 : string) : num :=
  match s2 with
  | String "0"%char (String "x"%char r)
  | String "0"%char (String "X"%char r) =>
      match hex_prefix r with
      | Hexadecimal.Nil => NaN
      | h => Num (sign * Z.of_hex_uint h)
      end
  | _ =>
      match dec_prefix s2 with
      | Decimal.Nil => NaN
      | d => Num (sign * Z.of_uint d)
      end
  end.

Definition parseInt (s : string) : num :=
  let s1 := trim_start s in
  match s1 with
  | String "-"%char r => parse_magnitude (-1) r
  | String "+"%char r => parse_magnitude 1 r
  | _ => parse_magnitude 1 s1
  end.

(** [encodeURIComponent] on a UTF-8 byte string: the unreserved marks
    and ASCII letters and digits stay, every other byte becomes [%XX]. *)
Definition is_unreserved (c : ascii) : bool :=
  let n := N_of_ascii c in
  (((65 <=? n) && (n <=? 90)) || ((97 <=? n) && (n <=? 122))
   || ((48 <=? n) && (n <=? 57)))%N
  || existsb (Ascii.eqb c)
       ["-"; "_"; "."; "!"; "~"; "*"; "'"; "("; ")"]%char.

Definition hex_char (n : N) : ascii :=
  (if n <? 10 then ascii_of_N (48 + n) else ascii_of_N (55 + n))%N.

Fixpoint encodeURIComponent (s : string) : string :=
  match s with
  | EmptyString => EmptyString
  | String c s' =>
      if is_unreserved c then String c (encodeURIComponent s')
      else
        let n := N_of_ascii c in
        String "%" (String (hex_char (n / 16)) (String (hex_char (n mod 16))
          (encodeURIComponent s')))
  end.

End JS.

(* ===================================================================== *)
(** ** Data model *)
(* ===================================================================== *)

(** A JSON document as the cast [as Session] presents it to the code:
    the three properties the code reads, each as what the code makes of
    it. The tokens are only ever turned into strings ([setItem], the
    [Bearer] template), so they are held as [String(value)]: the string
    itself for a string, ["undefined"] for a missing property. The
    lifetime is only ever multiplied, so it is held as [Number(value)]:
    NaN for a missing property. [token_type] is never read. *)
Record Session := {
  access_token : string;
  refresh_token : string;
  expires_in : JS.num
}.

Inductive Method := GET | POST.

(** The argument of [fetch]: URL, method, headers, and the object handed to
    [JSON.stringify] as body, field by field, each field as [String] of
    the value the code holds for it. *)
Record Request := {
  req_url : string;
  req_method : Method;
  req_headers : list (string * string);
  req_body : option (list (string * string))
}.

(** What a response body is to [json() as Session]: a JSON document
    other than [null], seen through the cast; the document [null]; or a
    body that is no JSON, on which [json()] rejects. *)
Inductive Payload :=
| SessionJson (s : Session)
| Opaque (raw : string)
| JsonNull.

Record Response := {
  status : Z;
  payload : Payload
}.

(** [response.ok]: the status is in the range 200-299. *)
Definition ok (r : Response) : bool :=
  (200 <=? status r) && (status r <=? 299).

Inductive Exn :=
| Error (message : string)
| TypeError (message : string)
| SyntaxError (message : string).

(** A [fetch] promise settles with a response or rejects. *)
Inductive Reply :=
| Resolve (r : Response)
| Reject (e : Exn).

(** Everything outside the program: the build-time API domain, the n-th
    reading of the clock, and the answer to the n-th network call. *)
Record Env := {
  VITE_TONE3000_API_DOMAIN : option string;
  clock : nat -> Z;
  fetch_reply : nat -> Request -> Reply
}.

(** One entry per effect, in program order. *)
Inductive Event :=
| EvGetItem (k : string) (v : option string)
| EvSetItem (k v : string)
| EvRemoveItem (k : string)
| EvDateNow (t : Z)
| EvFetch (req : Request) (rep : Reply)
| EvHref (url : string)
| EvSetIsLoggedIn (b : bool)
| EvReplaceState (path : string).

Record World := {
  localStorage : gmap string string;
  location_href : option string;
  trace : list Event;
  clock_reads : nat;
  fetches : nat
}.

Definition log (e : Event) (w : World) : World :=
  {| localStorage := localStorage w;
     location_href := location_href w;
     trace := trace w ++ [e];
     clock_reads := clock_reads w;
     fetches := fetches w |}.

Definition with_storage (m : gmap string string) (w : World) : World :=
  {| localStorage := m;
     location_href := location_href w;
     trace := trace w;
     clock_reads := clock_reads w;
     fetches := fetches w |}.

(** A page that has just loaded: nothing has happened yet. *)
Definition fresh (m : gmap string string) : World :=
  {| localStorage := m;
     location_href := None;
     trace := [];
     clock_reads := 0;
     fetches := 0 |}.

(* ===================================================================== *)
(** ** Effects: state plus exceptions *)
(* ===================================================================== *)

Inductive Res (A : Type) :=
| Ok (a : A)
| Throw (e : Exn).
Arguments Ok {A} a.
Arguments Throw {A} e.

Definition M (A : Type) : Type := World -> Res A * World.

Definition ret {A} (a : A) : M A := fun w => (Ok a, w).

Definition throw {A} (e : Exn) : M A := fun w => (Throw e, w).

Definition bind {A B} (m : M A) (k : A -> M B) : M B :=
  fun w =>
    match m w with
    | (Ok a, w') => k a w'
    | (Throw e, w') => (Throw e, w')
    end.

(** [try { m } catch (e) { h e }] *)
Definition try_catch {A} (m : M A) (h : Exn -> M A) : M A :=
  fun w =>
    match m w with
    | (Ok a, w') => (Ok a, w')
    | (Throw e, w') => h e w'
    end.

Notation "'let*' x ':=' m 'in' k" := (bind m (fun x => k))
  (at level 10, x name, m at level 100, k at level 200).
Notation "m ';;' k" := (bind m (fun _ => k))
  (at level 100, k at level 200, right associativity).

Definition getItem (k : string) : M (option string) :=
  fun w => let v := localStorage w !! k in (Ok v, log (EvGetItem k v) w).

Definition setItem (k v : string) : M unit :=
  fun w => (Ok tt, log (EvSetItem k v) (with_storage (<[k:=v]> (localStorage w)) w)).

Definition removeItem (k : string) : M unit :=
  fun w => (Ok tt, log (EvRemoveItem k) (with_storage (delete k (localStorage w)) w)).

(** [window.location.href = url] *)
Definition set_location_href (url : string) : M unit :=
  fun w =>
    (Ok tt,
     log (EvHref url)
       {| localStorage := localStorage w;
          location_href := Some url;
          trace := trace w;
          clock_reads := clock_reads w;
          fetches := fetches w |}).

Definition emit (e : Event) : M unit := fun w => (Ok tt, log e w).

(** [await response.json() as Session], up to the first property read.
    The cast checks nothing: every document other than [null] goes on.
    On [null] the read of [access_token] that follows at once throws. *)
Definition await_json (r : Response) : M Session :=
  match payload r with
  | SessionJson s => ret s
  | Opaque _ => throw (SyntaxError "Unexpected token")
  | JsonNull =>
      throw (TypeError "Cannot read properties of null (reading 'access_token')")
  end.

Section Program.

Variable env : Env.

(** [Date.now()] *)
Definition Date_now : M Z :=
  fun w =>
    let t := clock env (clock_reads w) in
    (Ok t,
     log (EvDateNow t)
       {| localStorage := localStorage w;
          location_href := location_href w;
          trace := trace w;
          clock_reads := S (clock_reads w);
          fetches := fetches w |}).

(** [await fetch(...)] *)
Definition fetch (req : Request) : M Response :=
  fun w =>
    let rep := fetch_reply env (fetches w) req in
    (match rep with Resolve r => Ok r | Reject e => Throw e end,
     log (EvFetch req rep)
       {| localStorage := localStorage w;
          location_href := location_href w;
          trace := trace w;
          clock_reads := clock_reads w;
          fetches := S (fetches w) |}).

Definition API_DOMAIN : string :=
  JS.or_else (VITE_TONE3000_API_DOMAIN env) "https://www.tone3000.com".

Definition redirectUrl : string :=
  JS.encodeURIComponent "http://localhost:3001".

Definition refresh_request (refreshToken accessToken : string) : Request :=
  {| req_url := API_DOMAIN +:+ "/api/v1/auth/session/refresh";
     req_method := POST;
     req_headers := [("Content-Type", "application/json")];
     req_body := Some [("refresh_token", refreshToken);
                       ("access_token", accessToken)] |}.

Definition get_request (url accessToken : string) : Request :=
  {| req_url := url;
     req_method := GET;
     req_headers := [("Authorization", "Bearer " +:+ accessToken);
                     ("Content-Type", "application/json")];
     req_body := None |}.

Definition login_url : string :=
  API_DOMAIN +:+ "/api/v1/auth?redirect_url=" +:+ redirectUrl.

(** The string behind a value already tested truthy. *)
Definition str (v : option string) : string :=
  match v with Some s => s | None => "null" end.

Definition t3kFetch (url : string) : M Response :=
  let* stored_token := getItem "tone3000_access_token" in
  let* stored_expiry := getItem "tone3000_expires_at" in
  let expiresAt := JS.parseInt (JS.or_else stored_expiry "0") in
  if negb (JS.truthy stored_token) then
    throw (Error "No access token available")
  else
  let accessToken := str stored_token in
  let* t := Date_now in
  let* accessToken :=
    if JS.gt (JS.Num t) (JS.sub expiresAt (JS.Num 30000)) then
      try_catch
        (let* refreshToken := getItem "tone3000_refresh_token" in
         if negb (JS.truthy refreshToken) then
           throw (Error "No refresh token available")
         else
         let* refreshResponse :=
           fetch (refresh_request (str refreshToken) accessToken) in
         (if negb (ok refreshResponse) then
            removeItem "tone3000_access_token";;
            removeItem "tone3000_refresh_token";;
            removeItem "tone3000_expires_at";;
            set_location_href login_url;;
            throw (Error "Token refresh failed")
          else ret tt);;
         let* tokens := await_json refreshResponse in
         setItem "tone3000_access_token" (access_token tokens);;
         setItem "tone3000_refresh_token" (refresh_token tokens);;
         let* t' := Date_now in
         setItem "tone3000_expires_at"
           (JS.String_num
              (JS.add (JS.Num t') (JS.mul (expires_in tokens) (JS.Num 1000))));;
         ret (access_token tokens))
        (fun refreshError =>
           throw (Error "Authentication failed and token refresh unsuccessful"))
    else ret accessToken in
  let* response := fetch (get_request url accessToken) in
  let* response :=
    if status response =? 401 then
      try_catch
        (let* refreshToken := getItem "tone3000_refresh_token" in
         if negb (JS.truthy refreshToken) then
           throw (Error "No refresh token available")
         else
         let* refreshResponse :=
           fetch (refresh_request (str refreshToken) accessToken) in
         (if negb (ok refreshResponse) then
            removeItem "tone3000_access_token";;
            removeItem "tone3000_refresh_token";;
            removeItem "tone3000_expires_at";;
            set_location_href login_url;;
            throw (Error "Token refresh failed")
          else ret tt);;
         let* tokens := await_json refreshResponse in
         setItem "tone3000_access_token" (access_token tokens);;
         setItem "tone3000_refresh_token" (refresh_token tokens);;
         let* t' := Date_now in
         setItem "tone3000_expires_at"
           (JS.String_num
              (JS.add (JS.Num t') (JS.mul (expires_in tokens) (JS.Num 1000))));;
         fetch (get_request url (access_token tokens)))
        (fun refreshError =>
           throw (Error "Authentication failed and token refresh unsuccessful"))
    else ret response in
  ret response.

(** [handleAuth], the closure of the mount effect; [apiKey] is the
    [api_key] query parameter it captures and [pathname] is
    [window.location.pathname]. *)
Definition handleAuth (apiKey pathname : string) : M unit :=
  let* response :=
    fetch {| req_url := API_DOMAIN +:+ "/api/v1/auth/session";
             req_method := POST;
             req_headers := [];
             req_body := Some [("api_key", apiKey)] |} in
  if negb (ok response) then
    throw (Error ("HTTP error! status: " +:+ JS.String_ (status response)))
  else
  let* data := await_json response in
  setItem "tone3000_access_token" (access_token data);;
  setItem "tone3000_refresh_token" (refresh_token data);;
  let* t := Date_now in
  setItem "tone3000_expires_at"
    (JS.String_num
       (JS.add (JS.Num t) (JS.mul (expires_in data) (JS.Num 1000))));;
  emit (EvSetIsLoggedIn true);;
  emit (EvReplaceState pathname).

End Program.

(* ===================================================================== *)
(** ** Reading a trace *)
(* ===================================================================== *)

(** A GET of the caller's URL. *)
Definition is_get (url : string) (e : Event) : bool :=
  match e with
  | EvFetch req _ =>
      match req_method req with
      | GET => String.eqb (req_url req) url
      | POST => false
      end
  | _ => false
  end.

(** A POST to the session-refresh endpoint. *)
Definition is_refresh_post (env : Env) (e : Event) : bool :=
  match e with
  | EvFetch req _ =>
      match req_method req with
      | POST =>
          String.eqb (req_url req)
            (API_DOMAIN env +:+ "/api/v1/auth/session/refresh")
      | GET => false
      end
  | _ => false
  end.

(** The first step of a refresh: reading the refresh token. *)
Definition is_refresh_read (e : Event) : bool :=
  match e with
  | EvGetItem k _ => String.eqb k "tone3000_refresh_token"
  | _ => false
  end.

Definition is_fetch (e : Event) : bool :=
  match e with EvFetch _ _ => true | _ => false end.

(** A write to the store: [setItem] or [removeItem]. *)
Definition is_write (e : Event) : bool :=
  match e with EvSetItem _ _ | EvRemoveItem _ => true | _ => false end.

Definition is_href (e : Event) : bool :=
  match e with EvHref _ => true | _ => false end.

Fixpoint count (p : Event -> bool) (tr : list Event) : nat :=
  match tr with
  | [] => O
  | e :: tr' => if p e then S (count p tr') else count p tr'
  end.

Fixpoint first (p : Event -> bool) (tr : list Event) : option Event :=
  match tr with
  | [] => None
  | e :: tr' => if p e then Some e else first p tr'
  end.

Fixpoint before_first (p : Event -> bool) (tr : list Event) : list Event :=
  match tr with
  | [] => []
  | e :: tr' => if p e then [] else e :: before_first p tr'
  end.

Fixpoint after_first (p : Event -> bool) (tr : list Event) : list Event :=
  match tr with
  | [] => []
  | e :: tr' => if p e then tr' else after_first p tr'
  end.

(** The store a trace leaves behind, from the writes it records. *)
Fixpoint replay (tr : list Event) (m : gmap string string) : gmap string string :=
  match tr with
  | [] => m
  | EvSetItem k v :: tr' => replay tr' (<[k:=v]> m)
  | EvRemoveItem k :: tr' => replay tr' (delete k m)
  | _ :: tr' => replay tr' m
  end.

(** A call on a freshly loaded page. *)
Definition run (env : Env) (url : string) (m : gmap string string)
  : Res Response * World :=
  t3kFetch env url (fresh m).

Definition outcome (env : Env) (url : string) (m : gmap string string)
  : Res Response := fst (run env url m).

(** The effects of a call, in order. *)
Definition effects (env : Env) (url : string) (m : gmap string string)
  : list Event := trace (snd (run env url m)).

Definition store_after (env : Env) (url : string) (m : gmap string string)
  : gmap string string := localStorage (snd (run env url m)).

Definition href_after (env : Env) (url : string) (m : gmap string string)
  : option string := location_href (snd (run env url m)).

Definition AUTH_FAILED : Exn :=
  Error "Authentication failed and token refresh unsuccessful".

Definition NO_ACCESS_TOKEN : Exn := Error "No access token available".

Definition is_remove (e : Event) : bool :=
  match e with EvRemoveItem _ => true | _ => false end.

Definition is_clock_read (e : Event) : bool :=
  match e with EvDateNow _ => true | _ => false end.

(** A clock reading [T] and a lifetime of [E] seconds whose expiry
    [T + E * 1000] is computed on safe integers throughout. *)
Definition exact_expiry (T E : Z) : Prop :=
  JS.safe T /\ JS.safe (E * 1000) /\ JS.safe (T + E * 1000).


(* --------------------------------------------------------------------- *)
(** *** Scenarios *)
(* --------------------------------------------------------------------- *)

Module Scenario.

Definition url : string := "https://www.tone3000.com/api/v1/user".

(** Session A1/R1 with a lifetime of 3600 s, stored at T = 1_000_000. *)
Definition store : gmap string string :=
  <["tone3000_access_token" := "A1"]>
    (<["tone3000_refresh_token" := "R1"]>
       (<["tone3000_expires_at" := JS.String_ (1000000 + 3600 * 1000)]>
          (<["tone3000_api_key" := "K1"]> ∅))).

Definition S2 : Session :=
  {| access_token := "A2"; refresh_token := "R2";
     expires_in := JS.Num 3600 |}.

(** An answer with status [code] and a plain-text body. *)
Definition respond (code : Z) : Reply :=
  Resolve {| status := code; payload := Opaque "ok" |}.

Definition grant : Reply :=
  Resolve {| status := 200; payload := SessionJson S2 |}.

Definition is_POST (req : Request) : bool :=
  match req_method req with POST => true | GET => false end.

(** A server that accepts every token, [t] ms after the epoch. *)
Definition healthy (t : Z) : Env :=
  {| VITE_TONE3000_API_DOMAIN := None;
     clock := fun n => t + Z.of_nat n;
     fetch_reply := fun _ req => if is_POST req then grant else respond 200 |}.

(** A server that rejects the first GET with [code] and accepts the rest. *)
Definition first_get (code : Z) (t : Z) : Env :=
  {| VITE_TONE3000_API_DOMAIN := None;
     clock := fun n => t + Z.of_nat n;
     fetch_reply := fun n req =>
       if is_POST req then grant
       else match n with O => respond code | _ => respond 200 end |}.

(** A server on which every GET is answered 401. *)
Definition always_401 (t : Z) : Env :=
  {| VITE_TONE3000_API_DOMAIN := None;
     clock := fun n => t + Z.of_nat n;
     fetch_reply := fun _ req => if is_POST req then grant else respond 401 |}.

(** A server whose refresh endpoint answers 400. *)
Definition revoked (t : Z) : Env :=
  {| VITE_TONE3000_API_DOMAIN := None;
     clock := fun n => t + Z.of_nat n;
     fetch_reply := fun _ req => if is_POST req then respond 400 else respond 401 |}.

(** An access token alone: no refresh token, an expiry far ahead. *)
Definition partial : gmap string string :=
  <["tone3000_access_token" := "A1"]>
    (<["tone3000_expires_at" := "4600000"]> ∅).

(** An expired access token and no refresh token. *)
Definition no_refresh_token : gmap string string :=
  <["tone3000_access_token" := "A1"]>
    (<["tone3000_expires_at" := "0"]> ∅).

(** An expiry entry that is not a number. *)
Definition garbled : gmap string string :=
  <["tone3000_access_token" := "A1"]>
    (<["tone3000_refresh_token" := "R1"]>
       (<["tone3000_expires_at" := "soon"]> ∅)).

(** No expiry entry at all. *)
Definition no_expiry : gmap string string :=
  <["tone3000_access_token" := "A1"]>
    (<["tone3000_refresh_token" := "R1"]> ∅).

End Scenario.

(* ===================================================================== *)
(** ** The component around [t3kFetch] *)
(* ===================================================================== *)

(** [err instanceof Error]: every exception of the model is an Error
    object. *)
Definition instanceof_Error (e : Exn) : bool :=
  match e with
  | Error _ | TypeError _ | SyntaxError _ => true
  end.

(** [err.message] *)
Definition err_message (e : Exn) : string :=
  match e with
  | Error m | TypeError m | SyntaxError m => m
  end.

(** [await p] for a promise that has settled. *)
Definition await {A} (p : Res A) : M A :=
  match p with
  | Ok a => ret a
  | Throw e => throw e
  end.

(** [s.split(sep)] for a one-character separator. *)
Fixpoint split (sep : ascii) (s : string) : list string :=
  match s with
  | EmptyString => [EmptyString]
  | String c s' =>
      if Ascii.eqb c sep then EmptyString :: split sep s'
      else
        match split sep s' with
        | piece :: pieces => String c piece :: pieces
        | [] => [String c EmptyString]
        end
  end.

(** [pieces.join(sep)] *)
Fixpoint join (sep : ascii) (pieces : list string) : string :=
  match pieces with
  | [] => EmptyString
  | [piece] => piece
  | piece :: rest => piece +:+ String sep (join sep rest)
  end.

(** [url.split('/').pop()!] in a template position: the last piece. *)
Definition file_name (url : string) : string :=
  str (last (split "/" url)).

Section Component.

Variable env : Env.

(** The documents of the listing endpoints are displayed and never
    inspected: their type and [response.json()] on them are parameters;
    [None] is the document [null]. *)
Variable J : Type.
Variable json : Response -> Res (option J).

(** The [data] and [error] state of the component. *)
Record View := {
  data : option J;
  error : option string
}.

(** The mount effect; [apiKey] is [params.get('api_key')]. [handleAuth()]
    is not awaited: its rejection never reaches the effect. *)
Definition App_mount (apiKey : option string) (pathname : string) : M unit :=
  if JS.truthy apiKey then
    setItem "tone3000_api_key" (str apiKey);;
    try_catch (handleAuth env (str apiKey) pathname) (fun _ => ret tt)
  else
    let* storedToken := getItem "tone3000_access_token" in
    if JS.truthy storedToken then emit (EvSetIsLoggedIn true) else ret tt.

Definition handleLogin (requireOtp : bool) : M unit :=
  let otpParam := if requireOtp then "&otp_only=true" else EmptyString in
  set_location_href
    (API_DOMAIN env +:+ "/api/v1/auth?redirect_url=" +:+ redirectUrl
     +:+ otpParam).

Definition handleGetTonesCreated : M View :=
  try_catch
    (let* response :=
       t3kFetch env
         (API_DOMAIN env +:+ "/api/v1/tones/created?page=1&page_size=10") in
     if negb (ok response) then
       throw (Error ("HTTP error! status: " +:+ JS.String_ (status response)))
     else
     let* d := await (json response) in
     ret {| data := d; error := None |})
    (fun err =>
       ret {| data := None;
              error := Some (if instanceof_Error err then err_message err
                             else "Failed to fetch tones") |}).

Definition handleGetTonesFavorited : M View :=
  try_catch
    (let* response :=
       t3kFetch env
         (API_DOMAIN env +:+ "/api/v1/tones/favorited?page=1&page_size=10") in
     if negb (ok response) then
       throw (Error ("HTTP error! status: " +:+ JS.String_ (status response)))
     else
     let* d := await (json response) in
     ret {| data := d; error := None |})
    (fun err =>
       ret {| data := None;
              error := Some (if instanceof_Error err then err_message err
                             else "Failed to fetch tones") |}).

Definition handleGetUser : M View :=
  try_catch
    (let* response := t3kFetch env (API_DOMAIN env +:+ "/api/v1/user") in
     if negb (ok response) then
       throw (Error ("HTTP error! status: " +:+ JS.String_ (status response)))
     else
     let* d := await (json response) in
     ret {| data := d; error := None |})
    (fun err =>
       ret {| data := None;
              error := Some (if instanceof_Error err then err_message err
                             else "Failed to fetch user") |}).

Definition handleSearch (query : string) : M View :=
  try_catch
    (let* response :=
       t3kFetch env
         (API_DOMAIN env +:+ "/api/v1/tones/search?query="
          +:+ JS.encodeURIComponent query) in
     if negb (ok response) then
       throw (Error ("HTTP error! status: " +:+ JS.String_ (status response)))
     else
     let* d := await (json response) in
     ret {| data := d; error := None |})
    (fun err =>
       ret {| data := None;
              error := Some (if instanceof_Error err then err_message err
                             else "Failed to search") |}).

(** The bytes of a body are saved and never inspected: their type and
    [response.blob()] are parameters. *)
Variable B : Type.
Variable blob : Response -> Res B.

(** What [downloadModel] hands to the browser: the blob behind the object
    URL and the [download] attribute of the anchor it clicks. *)
Record Download := {
  saved_blob : B;
  download : string
}.

(** [downloadModel(modelUrl!)]; [modelUrl] is [null] until something is
    typed, [fetch(null)] asks for the URL [null], and [url.split] then
    throws. On success nothing of the view is set; [v] is the view on
    entry. *)
Definition downloadModel (url : option string) (v : View)
  : M (View * option Download) :=
  try_catch
    (let* response := t3kFetch env (str url) in
     if negb (ok response) then
       throw (Error ("HTTP error! status: " +:+ JS.String_ (status response)))
     else
     let* b := await (blob response) in
     match url with
     | None =>
         throw (TypeError "Cannot read properties of null (reading 'split')")
     | Some u => ret (v, Some {| saved_blob := b; download := file_name u |})
     end)
    (fun err =>
       ret ({| data := None;
               error := Some (if instanceof_Error err then err_message err
                              else "Failed to download model") |},
            None)).

End Component.

Arguments data {J} _.
Arguments error {J} _.

(** The four handlers that fetch a document and show it. *)
Inductive listing (env : Env) (J : Type) (json : Response -> Res (option J))
  : string -> M (View J) -> Prop :=
| listing_created :
    listing env J json
      (API_DOMAIN env +:+ "/api/v1/tones/created?page=1&page_size=10")
      (handleGetTonesCreated env J json)
| listing_favorited :
    listing env J json
      (API_DOMAIN env +:+ "/api/v1/tones/favorited?page=1&page_size=10")
      (handleGetTonesFavorited env J json)
| listing_user :
    listing env J json (API_DOMAIN env +:+ "/api/v1/user")
      (handleGetUser env J json)
| listing_search query :
    listing env J json
      (API_DOMAIN env +:+ "/api/v1/tones/search?query="
       +:+ JS.encodeURIComponent query)
      (handleSearch env J json query).

(** A character that [encodeURIComponent] may produce. *)
Definition uri_safe (c : ascii) : bool :=
  JS.is_unreserved c || Ascii.eqb c "%".

(** A refresh reply that carries no document although it is no refusal:
    the request failed in transit, or the body of a 2xx answer is no JSON
    or is [null]. *)
Definition refresh_unusable (rep : Reply) : bool :=
  match rep with
  | Reject _ => true
  | Resolve rr =>
      ok rr && match payload rr with
               | Opaque _ | JsonNull => true
               | SessionJson _ => false
               end
  end.

Definition is_login (e : Event) : bool :=
  match e with EvSetIsLoggedIn true => true | _ => false end.

Definition session_request (env : Env) (apiKey : string) : Request :=
  {| req_url := API_DOMAIN env +:+ "/api/v1/auth/session";
     req_method := POST;
     req_headers := [];
     req_body := Some [("api_key", apiKey)] |}.

(** The shape the four listing handlers share: fetch [url], show the
    document or the error; [fallback] is the text for a thrown value that
    is no Error. *)
Definition show_document (env : Env) (J : Type)
    (json : Response -> Res (option J)) (url fallback : string)
  : M (View J) :=
  try_catch
    (let* response := t3kFetch env url in
     if negb (ok response) then
       throw (Error ("HTTP error! status: " +:+ JS.String_ (status response)))
     else
     let* d := await (json response) in
     ret {| data := d; error := None |})
    (fun err =>
       ret {| data := None;
              error := Some (if instanceof_Error err then err_message err
                             else fallback) |}).

(** [s.includes(c)] *)
Fixpoint has_char (c : ascii) (s : string) : bool :=
  match s with
  | EmptyString => false
  | String c' s' => Ascii.eqb c' c || has_char c s'
  end.

(** The value of an upper-case hexadecimal digit. *)
Definition hex_value (c : ascii) : N :=
  (if N_of_ascii c <? 58 then N_of_ascii c - 48 else N_of_ascii c - 55)%N.

Module Cases.

(** The network is down: every request is rejected. *)
Definition offline (t : Z) : Env :=
  {| VITE_TONE3000_API_DOMAIN := None;
     clock := fun n => t + Z.of_nat n;
     fetch_reply := fun _ _ => Reject (TypeError "Failed to fetch") |}.

(** The first GET is answered 401, the refresh is granted, and the
    retried GET is lost in transit. *)
Definition retry_lost (t : Z) : Env :=
  {| VITE_TONE3000_API_DOMAIN := None;
     clock := fun n => t + Z.of_nat n;
     fetch_reply := fun n req =>
       if Scenario.is_POST req then Scenario.grant
       else match n with
            | O => Scenario.respond 401
            | _ => Reject (TypeError "Failed to fetch")
            end |}.

(** Documents shown by their access token; a body that is no JSON does
    not parse. *)
Definition text (r : Response) : Res (option string) :=
  match payload r with
  | SessionJson s => Ok (Some (access_token s))
  | Opaque _ => Throw (SyntaxError "Unexpected token")
  | JsonNull => Ok None
  end.

(** Bodies saved as they are. *)
Definition bytes (r : Response) : Res Payload := Ok (payload r).

(** The document [{}] as the cast shows it. *)
Definition empty_object : Session :=
  {| access_token := "undefined"; refresh_token := "undefined";
     expires_in := JS.NaN |}.

(** A server that answers every request with 200 and the document [{}]. *)
Definition untyped (t : Z) : Env :=
  {| VITE_TONE3000_API_DOMAIN := None;
     clock := fun n => t + Z.of_nat n;
     fetch_reply := fun _ _ =>
       Resolve {| status := 200; payload := SessionJson empty_object |} |}.

End Cases.

(* ===================================================================== *)
(** ** Properties *)
(* ===================================================================== *)

(** *** Numbers written to the store read back unchanged *)

Lemma dec_prefix_string_of_uint (d : Decimal.uint) :
  JS.dec_prefix (NilEmpty.string_of_uint d) = d.
Proof. induction d; simpl; congruence. Qed.

Lemma parse_magnitude_digits (sign : Z) (d : Decimal.uint) :
  d <> Decimal.Nil ->
  JS.parse_magnitude sign (NilEmpty.string_of_uint d)
  = JS.Num (sign * Z.of_uint d).
Proof.
  intros Hd.
  assert (Hdec : match JS.dec_prefix (NilEmpty.string_of_uint d) with
                 | Decimal.Nil => JS.NaN
                 | d' => JS.Num (sign * Z.of_uint d')
                 end = JS.Num (sign * Z.of_uint d)).
  { rewrite dec_prefix_string_of_uint. destruct d; congruence. }
  destruct d as [|d|d|d|d|d|d|d|d|d|d]; try exact Hdec; try congruence.
  destruct d; exact Hdec.
Qed.

Lemma parseInt_digits (d : Decimal.uint) :
  d <> Decimal.Nil ->
  JS.parseInt (NilEmpty.string_of_uint d) = JS.Num (Z.of_uint d)
  /\ JS.parseInt (String "-" (NilEmpty.string_of_uint d))
     = JS.Num (- Z.of_uint d).
Proof.
  intros Hd. split.
  - replace (Z.of_uint d) with (1 * Z.of_uint d) by lia.
    rewrite <- (parse_magnitude_digits 1 d Hd).
    destruct d; [congruence | reflexivity ..].
  - replace (- Z.of_uint d) with (-1 * Z.of_uint d) by lia.
    rewrite <- (parse_magnitude_digits (-1) d Hd).
    reflexivity.
Qed.

(** The decimal digits [String_] prints read back as the integer they
    print. *)
Lemma parseInt_String_ (z : Z) : JS.parseInt (JS.String_ z) = JS.Num z.
Proof.
  unfold JS.String_.
  rewrite <- (DecimalZ.of_to z) at 2.
  destruct z as [|p|p]; [reflexivity| |];
    pose proof (Unsigned.to_uint_nonnil p) as Hp;
    destruct (parseInt_digits _ Hp) as [Hpos Hneg];
    cbn [Z.to_int NilZero.string_of_int Z.of_int];
    unfold NilZero.string_of_uint.
  - rewrite <- Hpos. destruct (Pos.to_uint p); [congruence | reflexivity ..].
  - rewrite <- Hneg. destruct (Pos.to_uint p); [congruence | reflexivity ..].
Qed.

Lemma truthy_false (v : option string) :
  JS.truthy v = false <-> v = None \/ v = Some EmptyString.
Proof.
  destruct v as [s|]; cbn; [|intuition congruence].
  destruct (String.eqb_spec s EmptyString); cbn; intuition congruence.
Qed.

Lemma truthy_true (v : option string) :
  JS.truthy v = true <-> exists s, v = Some s /\ s <> EmptyString.
Proof.
  destruct v as [s|]; cbn.
  - destruct (String.eqb_spec s EmptyString); cbn; split;
      [ discriminate | intros (? & ? & ?); congruence
      | eauto | reflexivity ].
  - split; [discriminate | intros (? & ? & ?); discriminate].
Qed.

(** The redirect target carries the percent-encoded return URL. *)
Lemma redirectUrl_value : redirectUrl = "http%3A%2F%2Flocalhost%3A3001".
Proof. reflexivity. Qed.

(** *** Splitting a trace at an event *)

Lemma nil_eq_app_cons {A} (pre : list A) x post : [] = pre ++ x :: post -> False.
Proof. destruct pre; discriminate. Qed.

Lemma cons_eq_app_cons {A} (a : A) l pre x post :
  a :: l = pre ++ x :: post ->
  (pre = [] /\ a = x /\ l = post)
  \/ exists pre', pre = a :: pre' /\ l = pre' ++ x :: post.
Proof.
  destruct pre as [|b pre]; cbn; intros H; injection H as -> ->; eauto.
Qed.

Ltac split_at H :=
  lazymatch type of H with
  | [] = _ ++ _ :: _ => exfalso; exact (nil_eq_app_cons _ _ _ H)
  | _ :: _ = _ ++ _ :: _ =>
      let Hx := fresh "Hx" in
      let pre' := fresh "pre" in
      apply cons_eq_app_cons in H;
      destruct H as [(-> & Hx & <-) | (pre' & -> & H)];
      [ try discriminate Hx | split_at H ]
  end.

(** *** Enumerating the paths of a call *)

Ltac head t :=
  lazymatch t with
  | (if ?c then _ else _) => head c
  | (if ?c then _ else _) _ => head c
  | (match ?c with pair _ _ => _ end) => head c
  | (match ?c with Ok _ => _ | Throw _ => _ end) => head c
  | (match ?c with Ok _ => _ | Throw _ => _ end) _ => head c
  | (match ?c with Resolve _ => _ | Reject _ => _ end) => head c
  | (match ?c with SessionJson _ => _ | Opaque _ => _ | JsonNull => _ end) =>
      head c
  | (match ?c with SessionJson _ => _ | Opaque _ => _ | JsonNull => _ end) _ =>
      head c
  | (match ?c with Some _ => _ | None => _ end) => head c
  | (match ?c with JS.Num _ => _ | JS.NaN => _ end) => head c
  | _ => t
  end.

Ltac red_run H :=
  cbv beta iota zeta delta
    [run t3kFetch handleAuth bind ret throw try_catch getItem setItem
     removeItem set_location_href emit await_json Date_now fetch log
     with_storage fresh localStorage location_href trace clock_reads fetches
     JS.truthy JS.gt JS.sub negb str app] in H.

Ltac simpl_lookups H :=
  repeat first
    [ rewrite lookup_insert_eq in H
    | rewrite lookup_insert_ne in H by discriminate ].

Ltac step H :=
  red_run H; simpl_lookups H;
  lazymatch type of H with
  | _ = ?t =>
      let c := head t in
      lazymatch c with
      | (_, _) => fail
      | _ => revert H; destruct c eqn:?; intros H
      end
  end.

Ltac to_prop :=
  repeat match goal with
    | H : (_ <? _) = true |- _ => apply Z.ltb_lt in H
    | H : (_ <? _) = false |- _ => apply Z.ltb_ge in H
    | H : (_ =? _) = true |- _ => apply Z.eqb_eq in H
    | H : (_ =? _) = false |- _ => apply Z.eqb_neq in H
    | H : String.eqb _ _ = true |- _ => apply String.eqb_eq in H
    | H : String.eqb _ _ = false |- _ => apply String.eqb_neq in H
    end.

Ltac read_trace :=
  repeat (progress
    (cbn [first before_first after_first count is_get is_refresh_post
          is_refresh_read is_fetch is_write is_href is_remove is_clock_read
          req_method req_url get_request refresh_request fst snd trace
          localStorage location_href replay app last In] in *;
     rewrite ?String.eqb_refl in * )).

Ltac paths_of t :=
  let R := fresh "R" in
  let HR := fresh "HR" in
  remember t as R eqn:HR;
  repeat step HR; subst R; to_prop.

Ltac paths :=
  unfold outcome, effects, store_after, href_after in *;
  match goal with
  | |- context [run ?env ?url ?m] => paths_of (run env url m)
  | H : context [run ?env ?url ?m] |- _ => paths_of (run env url m)
  end.

Ltac merge_eqs :=
  repeat match goal with
    | H1 : ?x = _, H2 : ?x = _ |- _ => rewrite H1 in H2; simplify_eq
    end.

(** *** General facts about a call *)

(** The store a call leaves is its initial store with the writes of its
    trace applied in order. *)
Lemma store_is_replay env url ls :
  store_after env url ls = replay (effects env url ls) ls.
Proof. paths; read_trace; reflexivity. Qed.

(** No loop: a call makes at most four network calls, at most two of them
    GETs of the caller's URL, and runs the refresh procedure at most
    twice. *)
Lemma network_calls_bounded env url ls :
  (count is_fetch (effects env url ls) <= 4)%nat
  /\ (count (is_get url) (effects env url ls) <= 2)%nat
  /\ (count is_refresh_read (effects env url ls) <= 2)%nat.
Proof. paths; read_trace; repeat split; cbn; lia. Qed.

(** The page is redirected only to the login URL, and only together with
    the failure of the call. *)
Lemma redirect_only_on_failure env url ls target :
  href_after env url ls = Some target ->
  target = login_url env /\ outcome env url ls = Throw AUTH_FAILED.
Proof. intros H. paths; read_trace; simplify_eq; split; reflexivity. Qed.

(** *** The scenarios of the specification *)

(** Ten seconds after issuance: one GET with [Bearer A1], no refresh. *)
Example scenario_within_margin :
  effects (Scenario.healthy 1010000) Scenario.url Scenario.store
  = [EvGetItem "tone3000_access_token" (Some "A1");
     EvGetItem "tone3000_expires_at" (Some "4600000");
     EvDateNow 1010000;
     EvFetch (get_request Scenario.url "A1") (Scenario.respond 200)].
Proof. vm_compute. reflexivity. Qed.

(** Five seconds before expiry: the refresh call carries R1 and A1 and
    comes before the GET, which carries the new token. *)
Example scenario_near_expiry :
  effects (Scenario.healthy 4595000) Scenario.url Scenario.store
  = [EvGetItem "tone3000_access_token" (Some "A1");
     EvGetItem "tone3000_expires_at" (Some "4600000");
     EvDateNow 4595000;
     EvGetItem "tone3000_refresh_token" (Some "R1");
     EvFetch (refresh_request (Scenario.healthy 4595000) "R1" "A1")
       Scenario.grant;
     EvSetItem "tone3000_access_token" "A2";
     EvSetItem "tone3000_refresh_token" "R2";
     EvDateNow 4595001;
     EvSetItem "tone3000_expires_at" "8195001";
     EvFetch (get_request Scenario.url "A2") (Scenario.respond 200)].
Proof. vm_compute. reflexivity. Qed.

(** The refresh endpoint refuses: the three keys are gone (the cached
    api_key stays) and the page goes to the login URL. *)
Example scenario_refresh_refused :
  store_after (Scenario.revoked 4595000) Scenario.url Scenario.store
  = <["tone3000_api_key" := "K1"]> ∅
  /\ href_after (Scenario.revoked 4595000) Scenario.url Scenario.store
     = Some "https://www.tone3000.com/api/v1/auth?redirect_url=http%3A%2F%2Flocalhost%3A3001".
Proof. split; vm_compute; reflexivity. Qed.

(** One 401, then a successful refresh: the retried GET carries
    [Bearer A2] and the store holds R2. *)
Example scenario_retry_after_401 :
  last (effects (Scenario.first_get 401 1010000) Scenario.url Scenario.store)
  = Some (EvFetch (get_request Scenario.url "A2") (Scenario.respond 200))
  /\ store_after (Scenario.first_get 401 1010000) Scenario.url Scenario.store
       !! "tone3000_refresh_token" = Some "R2"
  /\ outcome (Scenario.first_get 401 1010000) Scenario.url Scenario.store
     = Ok {| status := 200; payload := Opaque "ok" |}.
Proof. repeat split; vm_compute; reflexivity. Qed.

(** *** The claims *)

(** C1: with an access token stored and an expiry [e], the refresh
    procedure runs before the GET exactly when the clock reading exceeds
    [e - 30000]. At or below the margin nothing of a refresh precedes the
    GET, which is the first network call and carries the stored token.
    Above it the refresh procedure runs exactly once before any GET, and
    with a refresh token stored it posts exactly once to the refresh
    endpoint, as the first network call. *)
Theorem C1_proactive_refresh_iff_past_margin env url ls a e :
  ls !! "tone3000_access_token" = Some a ->
  a <> EmptyString ->
  JS.parseInt (JS.or_else (ls !! "tone3000_expires_at") "0") = JS.Num e ->
  (clock env 0 <= e - 30000 ->
     count is_refresh_read (before_first (is_get url) (effects env url ls)) = 0%nat
     /\ count (is_refresh_post env)
          (before_first (is_get url) (effects env url ls)) = 0%nat
     /\ first is_fetch (effects env url ls)
        = Some (EvFetch (get_request url a)
                  (fetch_reply env 0 (get_request url a))))
  /\ (clock env 0 > e - 30000 ->
     count is_refresh_read (before_first (is_get url) (effects env url ls)) = 1%nat
     /\ (forall rt,
           ls !! "tone3000_refresh_token" = Some rt -> rt <> EmptyString ->
           count (is_refresh_post env)
             (before_first (is_get url) (effects env url ls)) = 1%nat
           /\ first is_fetch (effects env url ls)
              = Some (EvFetch (refresh_request env rt a)
                        (fetch_reply env 0 (refresh_request env rt a)))))
  /\ (count is_refresh_read (before_first (is_get url) (effects env url ls)) = 1%nat
      <-> clock env 0 > e - 30000).
Proof.
  intros Ha Hne He.
  paths; read_trace; simplify_eq;
    repeat split; intros; simplify_eq; read_trace; try done; try lia; congruence.
Qed.

Lemma C1_witness :
  count is_refresh_read
    (before_first (is_get Scenario.url)
       (effects (Scenario.healthy 4595000) Scenario.url Scenario.store)) = 1%nat
  <-> 4595000 > 4600000 - 30000.
Proof.
  apply (C1_proactive_refresh_iff_past_margin
           (Scenario.healthy 4595000) Scenario.url Scenario.store "A1" 4600000).
  - vm_compute. reflexivity.
  - vm_compute. discriminate.
  - vm_compute. reflexivity.
Defined.

Ltac solve_in := cbn [In]; repeat first [ left; reflexivity | right ].

(** C2, as the code has it: when the first GET is answered 401 the
    refresh procedure runs once more and only once. If the refresh
    endpoint answers 2xx with a Session [N], the store holds the tokens
    of [N], the same GET (URL, method, content type, no body) is reissued
    exactly once with [Authorization: Bearer N.access_token] as the last
    effect of the call, and what it is answered is returned whatever its
    status (a second 401 included, with no further refresh or retry). If
    no 2xx answer with a document comes back, the GET is not reissued and
    the call fails with the authentication-failed error. *)
Theorem C2_one_refresh_then_retry_if_granted env url ls req r :
  first (is_get url) (effects env url ls) = Some (EvFetch req (Resolve r)) ->
  status r = 401 ->
  count is_refresh_read (after_first (is_get url) (effects env url ls)) = 1%nat
  /\ (forall rreq rr N,
        In (EvFetch rreq (Resolve rr))
           (after_first (is_get url) (effects env url ls)) ->
        is_refresh_post env (EvFetch rreq (Resolve rr)) = true ->
        ok rr = true ->
        payload rr = SessionJson N ->
        exists tok rep,
          req = {| req_url := url;
                   req_method := GET;
                   req_headers := [("Authorization", "Bearer " +:+ tok);
                                   ("Content-Type", "application/json")];
                   req_body := None |}
          /\ last (after_first (is_get url) (effects env url ls))
             = Some (EvFetch
                       {| req_url := url;
                          req_method := GET;
                          req_headers :=
                            [("Authorization", "Bearer " +:+ access_token N);
                             ("Content-Type", "application/json")];
                          req_body := None |} rep)
          /\ count (is_get url)
               (after_first (is_get url) (effects env url ls)) = 1%nat
          /\ count (is_refresh_post env)
               (after_first (is_get url) (effects env url ls)) = 1%nat
          /\ store_after env url ls !! "tone3000_access_token"
             = Some (access_token N)
          /\ store_after env url ls !! "tone3000_refresh_token"
             = Some (refresh_token N)
          /\ is_Some (store_after env url ls !! "tone3000_expires_at")
          /\ outcome env url ls
             = match rep with
               | Resolve r2 => Ok r2
               | Reject _ => Throw AUTH_FAILED
               end)
  /\ ((forall rreq rr N,
         In (EvFetch rreq (Resolve rr))
            (after_first (is_get url) (effects env url ls)) ->
         ok rr = true ->
         payload rr = SessionJson N ->
         False) ->
      count (is_get url) (after_first (is_get url) (effects env url ls)) = 0%nat
      /\ outcome env url ls = Throw AUTH_FAILED).
Proof.
  intros Hfirst Hst.
  paths; read_trace; simplify_eq; try lia;
    (split; [reflexivity|]); split.
  all: try (intros rreq rr N HIn Hpost Hok Hpay;
            repeat (destruct HIn as [HIn|HIn]; simplify_eq; read_trace;
                    try discriminate);
            try contradiction; try congruence; merge_eqs;
            eexists _, _;
            repeat (split; [first [reflexivity | by simplify_map_eq
                                  | rewrite lookup_insert_eq; eauto]|]);
            reflexivity).
  all: intros Hnone;
    first [ split; reflexivity
          | exfalso; eapply Hnone; [solve_in | eassumption | eassumption] ].
Qed.

Lemma C2_witness :
  exists tok rep,
    get_request Scenario.url "A1"
    = {| req_url := Scenario.url;
         req_method := GET;
         req_headers := [("Authorization", "Bearer " +:+ tok);
                         ("Content-Type", "application/json")];
         req_body := None |}
    /\ last (after_first (is_get Scenario.url)
               (effects (Scenario.always_401 1010000) Scenario.url Scenario.store))
       = Some (EvFetch
                 {| req_url := Scenario.url;
                    req_method := GET;
                    req_headers := [("Authorization", "Bearer A2");
                                    ("Content-Type", "application/json")];
                    req_body := None |} rep)
    /\ count (is_get Scenario.url)
         (after_first (is_get Scenario.url)
            (effects (Scenario.always_401 1010000) Scenario.url Scenario.store))
       = 1%nat
    /\ count (is_refresh_post (Scenario.always_401 1010000))
         (after_first (is_get Scenario.url)
            (effects (Scenario.always_401 1010000) Scenario.url Scenario.store))
       = 1%nat
    /\ store_after (Scenario.always_401 1010000) Scenario.url Scenario.store
         !! "tone3000_access_token" = Some "A2"
    /\ store_after (Scenario.always_401 1010000) Scenario.url Scenario.store
         !! "tone3000_refresh_token" = Some "R2"
    /\ is_Some (store_after (Scenario.always_401 1010000) Scenario.url
                  Scenario.store !! "tone3000_expires_at")
    /\ outcome (Scenario.always_401 1010000) Scenario.url Scenario.store
       = match rep with
         | Resolve r2 => Ok r2
         | Reject _ => Throw AUTH_FAILED
         end.
Proof.
  refine (proj1 (proj2
    (C2_one_refresh_then_retry_if_granted
       (Scenario.always_401 1010000) Scenario.url Scenario.store
       (get_request Scenario.url "A1")
       {| status := 401; payload := Opaque "ok" |} _ _))
    (refresh_request (Scenario.always_401 1010000) "R1" "A1")
    {| status := 200; payload := SessionJson Scenario.S2 |}
    Scenario.S2 _ _ _ _).
  - vm_compute. reflexivity.
  - reflexivity.
  - vm_compute. tauto.
  - vm_compute. reflexivity.
  - reflexivity.
  - reflexivity.
Defined.

(** C2 fails as stated: the first GET is answered 401 and the refresh
    endpoint refuses; the GET is not reissued and no response is
    returned. *)
Lemma C2_no_retry_when_refresh_refused :
  first (is_get Scenario.url)
    (effects (Scenario.revoked 1010000) Scenario.url Scenario.store)
  = Some (EvFetch (get_request Scenario.url "A1") (Scenario.respond 401))
  /\ count (is_get Scenario.url)
       (effects (Scenario.revoked 1010000) Scenario.url Scenario.store)
     = 1%nat
  /\ outcome (Scenario.revoked 1010000) Scenario.url Scenario.store
     = Throw AUTH_FAILED.
Proof. vm_compute. auto. Qed.

(** C3: when the refresh endpoint answers with a non-success status, the
    three entries are removed, the page is sent to the login URL with the
    return URL, nothing else happens, and the call fails; if no GET had
    been made before that refresh, none is made at all. *)
Theorem C3_rejected_refresh_clears_and_redirects env url ls pre req rr post :
  effects env url ls = pre ++ EvFetch req (Resolve rr) :: post ->
  is_refresh_post env (EvFetch req (Resolve rr)) = true ->
  ok rr = false ->
  outcome env url ls = Throw AUTH_FAILED
  /\ post = [EvRemoveItem "tone3000_access_token";
             EvRemoveItem "tone3000_refresh_token";
             EvRemoveItem "tone3000_expires_at";
             EvHref (login_url env)]
  /\ store_after env url ls !! "tone3000_access_token" = None
  /\ store_after env url ls !! "tone3000_refresh_token" = None
  /\ store_after env url ls !! "tone3000_expires_at" = None
  /\ href_after env url ls = Some (login_url env)
  /\ (count (is_get url) pre = 0%nat ->
      count (is_get url) (effects env url ls) = 0%nat).
Proof.
  intros Htr Hpost Hok.
  paths; read_trace; split_at Htr; simplify_eq; read_trace;
    try discriminate; try congruence;
    repeat split; try reflexivity; try discriminate;
    by simplify_map_eq.
Qed.

Lemma C3_witness :
  outcome (Scenario.revoked 4595000) Scenario.url Scenario.store
  = Throw AUTH_FAILED
  /\ store_after (Scenario.revoked 4595000) Scenario.url Scenario.store
     !! "tone3000_access_token" = None
  /\ href_after (Scenario.revoked 4595000) Scenario.url Scenario.store
     = Some "https://www.tone3000.com/api/v1/auth?redirect_url=http%3A%2F%2Flocalhost%3A3001".
Proof.
  pose proof (C3_rejected_refresh_clears_and_redirects
    (Scenario.revoked 4595000) Scenario.url Scenario.store
    [EvGetItem "tone3000_access_token" (Some "A1");
     EvGetItem "tone3000_expires_at" (Some "4600000");
     EvDateNow 4595000;
     EvGetItem "tone3000_refresh_token" (Some "R1")]
    (refresh_request (Scenario.revoked 4595000) "R1" "A1")
    {| status := 400; payload := Opaque "ok" |}
    [EvRemoveItem "tone3000_access_token";
     EvRemoveItem "tone3000_refresh_token";
     EvRemoveItem "tone3000_expires_at";
     EvHref (login_url (Scenario.revoked 4595000))]) as H.
  destruct H as (H1 & _ & H2 & _ & _ & H3 & _).
  - vm_compute. reflexivity.
  - vm_compute. reflexivity.
  - vm_compute. reflexivity.
  - exact (conj H1 (conj H2 H3)).
Defined.

(** C4, as the code has it: the only entry checked up front is the access
    token. When it is absent or empty the call fails at once with
    "No access token available": the two reads are its only effects, the
    clock is not read, no network call is made and the store is as it was. *)
Theorem C4_no_access_token_fails_without_network env url ls :
  JS.truthy (ls !! "tone3000_access_token") = false ->
  run env url ls
  = (Throw NO_ACCESS_TOKEN,
     {| localStorage := ls;
        location_href := None;
        trace := [EvGetItem "tone3000_access_token"
                    (ls !! "tone3000_access_token");
                  EvGetItem "tone3000_expires_at"
                    (ls !! "tone3000_expires_at")];
        clock_reads := 0;
        fetches := 0 |}).
Proof.
  intros Hfalsy.
  unfold run, t3kFetch, bind, getItem, log, fresh; cbn.
  rewrite Hfalsy. reflexivity.
Qed.

Lemma C4_witness :
  outcome (Scenario.healthy 1010000) Scenario.url ∅ = Throw NO_ACCESS_TOKEN
  /\ count is_fetch (effects (Scenario.healthy 1010000) Scenario.url ∅) = 0%nat.
Proof.
  unfold outcome, effects.
  rewrite (C4_no_access_token_fails_without_network
             (Scenario.healthy 1010000) Scenario.url ∅).
  - split; reflexivity.
  - vm_compute. reflexivity.
Defined.

(** C4 fails as stated: a store holding an access token and an expiry but
    no refresh token is not treated as absent; the GET is sent and its
    response returned. *)
Lemma C4_partial_session_is_used :
  Scenario.partial !! "tone3000_refresh_token" = None
  /\ outcome (Scenario.healthy 1010000) Scenario.url Scenario.partial
     = Ok {| status := 200; payload := Opaque "ok" |}
  /\ effects (Scenario.healthy 1010000) Scenario.url Scenario.partial
     = [EvGetItem "tone3000_access_token" (Some "A1");
        EvGetItem "tone3000_expires_at" (Some "4600000");
        EvDateNow 1010000;
        EvFetch (get_request Scenario.url "A1")
          (Resolve {| status := 200; payload := Opaque "ok" |})].
Proof. vm_compute. auto. Qed.

(** The path without a refresh token, on every input: when the refresh
    procedure finds no refresh token (absent or empty), the call stops
    there and fails; nothing is posted, nothing is removed from the
    store, which stays as the earlier effects left it and still holds an
    access token, and the page is not redirected. The path of a refused
    refresh, in the same two blocks, clears the store and redirects. *)
Theorem C5_missing_refresh_token_fails_without_clearing env url ls pre v post :
  effects env url ls = pre ++ EvGetItem "tone3000_refresh_token" v :: post ->
  JS.truthy v = false ->
  outcome env url ls = Throw AUTH_FAILED
  /\ post = []
  /\ count is_remove (effects env url ls) = 0%nat
  /\ count is_href (effects env url ls) = 0%nat
  /\ href_after env url ls = None
  /\ store_after env url ls = replay pre ls
  /\ is_Some (store_after env url ls !! "tone3000_access_token").
Proof.
  intros Htr Hv.
  paths; read_trace; split_at Htr; simplify_eq; read_trace;
    cbn [JS.truthy negb] in *; rewrite ?String.eqb_refl in *;
    try discriminate;
    repeat match goal with
      | H : negb (String.eqb ?s EmptyString) = false |- _ =>
          destruct (String.eqb_spec s EmptyString); [|discriminate H]
      end;
    try congruence;
    repeat split; try reflexivity; simplify_map_eq; eauto.
Qed.

Lemma C5_witness :
  outcome (Scenario.healthy 1010000) Scenario.url Scenario.no_refresh_token
  = Throw AUTH_FAILED
  /\ store_after (Scenario.healthy 1010000) Scenario.url Scenario.no_refresh_token
     = Scenario.no_refresh_token.
Proof.
  pose proof (C5_missing_refresh_token_fails_without_clearing
    (Scenario.healthy 1010000) Scenario.url Scenario.no_refresh_token
    [EvGetItem "tone3000_access_token" (Some "A1");
     EvGetItem "tone3000_expires_at" (Some "0");
     EvDateNow 1010000]
    None []) as H.
  destruct H as (H1 & _ & _ & _ & _ & H2 & _).
  - vm_compute. reflexivity.
  - reflexivity.
  - exact (conj H1 H2).
Defined.

(** C5 at a failing input: with an expired access token and no refresh
    token stored, the call fails with the authentication-failed error
    after reading the refresh token, but the store is left untouched and
    no redirect is issued: the escalation that the refused-refresh path
    performs is missing on this path. *)
Lemma C5_store_not_cleared :
  outcome (Scenario.healthy 1010000) Scenario.url Scenario.no_refresh_token
  = Throw AUTH_FAILED
  /\ store_after (Scenario.healthy 1010000) Scenario.url Scenario.no_refresh_token
     !! "tone3000_access_token" = Some "A1"
  /\ store_after (Scenario.healthy 1010000) Scenario.url Scenario.no_refresh_token
     !! "tone3000_expires_at" = Some "0"
  /\ href_after (Scenario.healthy 1010000) Scenario.url Scenario.no_refresh_token
     = None
  /\ effects (Scenario.healthy 1010000) Scenario.url Scenario.no_refresh_token
     = [EvGetItem "tone3000_access_token" (Some "A1");
        EvGetItem "tone3000_expires_at" (Some "0");
        EvDateNow 1010000;
        EvGetItem "tone3000_refresh_token" None].
Proof. vm_compute. auto 10. Qed.

(** C6: a first response whose status is not 401 is returned untouched:
    nothing follows the GET (no refresh, no retry) and the call made
    exactly one GET of the caller's URL. *)
Theorem C6_other_status_returned_untouched env url ls req r :
  first (is_get url) (effects env url ls) = Some (EvFetch req (Resolve r)) ->
  status r <> 401 ->
  outcome env url ls = Ok r
  /\ after_first (is_get url) (effects env url ls) = []
  /\ count (is_get url) (effects env url ls) = 1%nat.
Proof.
  intros Hfirst Hst.
  paths; read_trace; simplify_eq; done.
Qed.

Lemma C6_witness :
  outcome (Scenario.first_get 404 1010000) Scenario.url Scenario.store
  = Ok {| status := 404; payload := Opaque "ok" |}
  /\ after_first (is_get Scenario.url)
       (effects (Scenario.first_get 404 1010000) Scenario.url Scenario.store) = []
  /\ count (is_get Scenario.url)
       (effects (Scenario.first_get 404 1010000) Scenario.url Scenario.store) = 1%nat.
Proof.
  apply (C6_other_status_returned_untouched
           (Scenario.first_get 404 1010000) Scenario.url Scenario.store
           (get_request Scenario.url "A1")).
  - vm_compute. reflexivity.
  - simpl. lia.
Defined.





(** C8: after a successful refresh with Session [N] the next effects are,
    in this order, the three writes of the new Session and then the GET
    to the same URL with [Authorization: Bearer N.access_token]; the store
    the GET is sent from holds the new Session, and so does the final
    store unless a later refresh rewrote it. The expiry written is the
    new clock reading plus [expires_in * 1000] (on safe integers). *)
Theorem C8_store_updated_before_bearer_get env url ls pre req rr N post :
  effects env url ls = pre ++ EvFetch req (Resolve rr) :: post ->
  is_refresh_post env (EvFetch req (Resolve rr)) = true ->
  ok rr = true ->
  payload rr = SessionJson N ->
  exists T v rep post',
    post = [EvSetItem "tone3000_access_token" (access_token N);
            EvSetItem "tone3000_refresh_token" (refresh_token N);
            EvDateNow T;
            EvSetItem "tone3000_expires_at" v;
            EvFetch
              {| req_url := url;
                 req_method := GET;
                 req_headers :=
                   [("Authorization", "Bearer " +:+ access_token N);
                    ("Content-Type", "application/json")];
                 req_body := None |} rep] ++ post'
    /\ T = clock env (count is_clock_read pre)
    /\ (forall E, expires_in N = JS.Num E -> exact_expiry T E ->
          v = JS.String_ (T + E * 1000))
    /\ replay (pre ++ EvFetch req (Resolve rr) :: take 4 post) ls
         !! "tone3000_access_token" = Some (access_token N)
    /\ replay (pre ++ EvFetch req (Resolve rr) :: take 4 post) ls
         !! "tone3000_refresh_token" = Some (refresh_token N)
    /\ replay (pre ++ EvFetch req (Resolve rr) :: take 4 post) ls
         !! "tone3000_expires_at" = Some v
    /\ store_after env url ls = replay (effects env url ls) ls
    /\ (count is_write post' = 0%nat ->
        store_after env url ls !! "tone3000_access_token"
          = Some (access_token N)
        /\ store_after env url ls !! "tone3000_refresh_token"
          = Some (refresh_token N)
        /\ store_after env url ls !! "tone3000_expires_at" = Some v).
Proof.
  intros Htr Hpost Hok Hpay.
  paths; read_trace; split_at Htr; simplify_eq; read_trace;
    try discriminate; merge_eqs; try congruence;
    eexists _, _, _, _; (split; [reflexivity|]);
    (split; [reflexivity|]);
    (split; [let HE := fresh in intros ? HE _; rewrite HE; reflexivity|]);
    cbn [take replay]; repeat split; try reflexivity;
    try (intros; discriminate); by simplify_map_eq.
Qed.

Lemma C8_witness :
  exists T v rep post',
    [EvSetItem "tone3000_access_token" "A2";
     EvSetItem "tone3000_refresh_token" "R2";
     EvDateNow 1010001;
     EvSetItem "tone3000_expires_at" "4610001";
     EvFetch (get_request Scenario.url "A2") (Scenario.respond 200)]
    = [EvSetItem "tone3000_access_token" "A2";
       EvSetItem "tone3000_refresh_token" "R2";
       EvDateNow T;
       EvSetItem "tone3000_expires_at" v;
       EvFetch
         {| req_url := Scenario.url;
            req_method := GET;
            req_headers := [("Authorization", "Bearer A2");
                            ("Content-Type", "application/json")];
            req_body := None |} rep] ++ post'
    /\ v = JS.String_ (T + 3600 * 1000)
    /\ store_after (Scenario.first_get 401 1010000) Scenario.url Scenario.store
         !! "tone3000_refresh_token" = Some "R2".
Proof.
  destruct (C8_store_updated_before_bearer_get
    (Scenario.first_get 401 1010000) Scenario.url Scenario.store
    [EvGetItem "tone3000_access_token" (Some "A1");
     EvGetItem "tone3000_expires_at" (Some "4600000");
     EvDateNow 1010000;
     EvFetch (get_request Scenario.url "A1") (Scenario.respond 401);
     EvGetItem "tone3000_refresh_token" (Some "R1")]
    (refresh_request (Scenario.first_get 401 1010000) "R1" "A1")
    {| status := 200; payload := SessionJson Scenario.S2 |}
    Scenario.S2
    [EvSetItem "tone3000_access_token" "A2";
     EvSetItem "tone3000_refresh_token" "R2";
     EvDateNow 1010001;
     EvSetItem "tone3000_expires_at" "4610001";
     EvFetch (get_request Scenario.url "A2") (Scenario.respond 200)])
    as (T & v & rep & post' & Hpost & HT & Hv & _).
  - vm_compute. reflexivity.
  - vm_compute. reflexivity.
  - reflexivity.
  - reflexivity.
  - exists T, v, rep, post'. split; [exact Hpost|].
    split; [|vm_compute; reflexivity].
    apply Hv; [reflexivity|]. subst T.
    unfold exact_expiry, JS.safe, JS.MAX_SAFE_INTEGER. vm_compute.
    repeat split; discriminate.
Defined.

(** C9, as the code has it: with an access token stored and the expiry
    entry missing or empty, the expiry is 0, and on any clock reading
    above -30000 (every time since the epoch) the refresh procedure is the
    next thing run after the clock read, before any GET. *)
Theorem C9_missing_expiry_is_zero env url ls a :
  ls !! "tone3000_access_token" = Some a ->
  a <> EmptyString ->
  JS.truthy (ls !! "tone3000_expires_at") = false ->
  JS.parseInt (JS.or_else (ls !! "tone3000_expires_at") "0") = JS.Num 0
  /\ (clock env 0 > -30000 ->
      firstn 4 (effects env url ls)
      = [EvGetItem "tone3000_access_token" (Some a);
         EvGetItem "tone3000_expires_at" (ls !! "tone3000_expires_at");
         EvDateNow (clock env 0);
         EvGetItem "tone3000_refresh_token" (ls !! "tone3000_refresh_token")]
      /\ count is_refresh_read
           (before_first (is_get url) (effects env url ls)) = 1%nat).
Proof.
  intros Ha Hne Hexp.
  assert (Hparse :
    JS.parseInt (JS.or_else (ls !! "tone3000_expires_at") "0") = JS.Num 0).
  { apply truthy_false in Hexp as [-> | ->]; reflexivity. }
  split; [exact Hparse|]. intros Hclock.
  paths; read_trace; simplify_eq; try lia; cbn [firstn];
    split; first [congruence | reflexivity].
Qed.

Lemma C9_witness :
  JS.parseInt (JS.or_else (Scenario.no_expiry !! "tone3000_expires_at") "0")
  = JS.Num 0
  /\ count is_refresh_read
       (before_first (is_get Scenario.url)
          (effects (Scenario.healthy 1010000) Scenario.url Scenario.no_expiry))
     = 1%nat.
Proof.
  destruct (C9_missing_expiry_is_zero
    (Scenario.healthy 1010000) Scenario.url Scenario.no_expiry "A1")
    as (H1 & H2).
  - vm_compute. reflexivity.
  - vm_compute. discriminate.
  - vm_compute. reflexivity.
  - split; [exact H1|]. apply H2. vm_compute. reflexivity.
Defined.

(** C9 fails as stated: an expiry entry that does not parse is NaN, not 0;
    the comparison with the clock is then false and the GET is sent with
    the stored token, no refresh before it. *)
Lemma C9_unparsable_expiry_skips_refresh :
  JS.parseInt (JS.or_else (Scenario.garbled !! "tone3000_expires_at") "0")
  = JS.NaN
  /\ count is_refresh_read
       (effects (Scenario.healthy 1700000000000) Scenario.url Scenario.garbled)
     = 0%nat
  /\ effects (Scenario.healthy 1700000000000) Scenario.url Scenario.garbled
     = [EvGetItem "tone3000_access_token" (Some "A1");
        EvGetItem "tone3000_expires_at" (Some "soon");
        EvDateNow 1700000000000;
        EvFetch (get_request Scenario.url "A1") (Scenario.respond 200)].
Proof. vm_compute. auto. Qed.

(** C10: within the margin and with a first response other than 401, the
    call writes nothing: the store afterwards is the store before, entry
    for entry. *)
Theorem C10_happy_path_leaves_store_unchanged env url ls a e r :
  ls !! "tone3000_access_token" = Some a ->
  a <> EmptyString ->
  JS.parseInt (JS.or_else (ls !! "tone3000_expires_at") "0") = JS.Num e ->
  clock env 0 <= e - 30000 ->
  fetch_reply env 0 (get_request url a) = Resolve r ->
  status r <> 401 ->
  store_after env url ls = ls
  /\ count is_write (effects env url ls) = 0%nat
  /\ outcome env url ls = Ok r
  /\ effects env url ls
     = [EvGetItem "tone3000_access_token" (Some a);
        EvGetItem "tone3000_expires_at" (ls !! "tone3000_expires_at");
        EvDateNow (clock env 0);
        EvFetch (get_request url a) (Resolve r)].
Proof.
  intros Ha Hne He Hclock Hreply Hst.
  paths; read_trace; simplify_eq; try lia; merge_eqs; try congruence;
    repeat split; reflexivity.
Qed.

Lemma C10_witness :
  store_after (Scenario.healthy 1010000) Scenario.url Scenario.store
  = Scenario.store
  /\ store_after (Scenario.healthy 1010000) Scenario.url Scenario.store
     !! "tone3000_api_key" = Some "K1".
Proof.
  destruct (C10_happy_path_leaves_store_unchanged
    (Scenario.healthy 1010000) Scenario.url Scenario.store "A1" 4600000
    {| status := 200; payload := Opaque "ok" |}) as (H & _).
  - vm_compute. reflexivity.
  - vm_compute. discriminate.
  - vm_compute. reflexivity.
  - vm_compute. discriminate.
  - reflexivity.
  - simpl. lia.
  - split; [exact H|]. rewrite H. vm_compute. reflexivity.
Defined.

(* ===================================================================== *)
(** ** Further properties of the code *)
(* ===================================================================== *)

(** *** [t3kFetch] *)

(** A redirect means the user has been logged out: the page is sent
    nowhere but to the login URL, as the last effect of a call that
    fails, and the three token entries are then gone. *)
Theorem t3kFetch_redirect_means_logged_out env url ls target :
  href_after env url ls = Some target ->
  target = login_url env
  /\ outcome env url ls = Throw AUTH_FAILED
  /\ last (effects env url ls) = Some (EvHref (login_url env))
  /\ store_after env url ls !! "tone3000_access_token" = None
  /\ store_after env url ls !! "tone3000_refresh_token" = None
  /\ store_after env url ls !! "tone3000_expires_at" = None.
Proof.
  intros H.
  paths; read_trace; simplify_eq;
    repeat split; try reflexivity; by simplify_map_eq.
Qed.

Lemma t3kFetch_redirect_means_logged_out_witness :
  outcome (Scenario.revoked 4595000) Scenario.url Scenario.store
  = Throw AUTH_FAILED
  /\ store_after (Scenario.revoked 4595000) Scenario.url Scenario.store
     !! "tone3000_access_token" = None.
Proof.
  destruct (t3kFetch_redirect_means_logged_out
    (Scenario.revoked 4595000) Scenario.url Scenario.store
    (login_url (Scenario.revoked 4595000))) as (_ & H1 & _ & H2 & _).
  - vm_compute. reflexivity.
  - exact (conj H1 H2).
Defined.

(** Only the three token entries are ever written: every other key of
    the store, the cached api_key among them, reads after the call as it
    did before. *)
Theorem t3kFetch_touches_only_token_entries env url ls k :
  k <> "tone3000_access_token" ->
  k <> "tone3000_refresh_token" ->
  k <> "tone3000_expires_at" ->
  store_after env url ls !! k = ls !! k.
Proof.
  intros Ha Hr He.
  paths; read_trace;
    repeat first [ rewrite lookup_insert_ne by congruence
                 | rewrite lookup_delete_ne by congruence ];
    reflexivity.
Qed.

Lemma t3kFetch_touches_only_token_entries_witness :
  store_after (Scenario.revoked 4595000) Scenario.url Scenario.store
    !! "tone3000_api_key" = Some "K1".
Proof.
  rewrite (t3kFetch_touches_only_token_entries
             (Scenario.revoked 4595000) Scenario.url Scenario.store
             "tone3000_api_key").
  - vm_compute. reflexivity.
  - vm_compute. discriminate.
  - vm_compute. discriminate.
  - vm_compute. discriminate.
Defined.

(** What a caller can catch: the missing-token error, the
    authentication-failed error, or the very exception with which the
    first GET was rejected. The messages thrown inside the refresh
    blocks never reach the caller. *)
Theorem t3kFetch_errors_seen_by_caller env url ls e :
  outcome env url ls = Throw e ->
  e = NO_ACCESS_TOKEN
  \/ e = AUTH_FAILED
  \/ exists req,
       first (is_get url) (effects env url ls) = Some (EvFetch req (Reject e))
       /\ last (effects env url ls) = Some (EvFetch req (Reject e)).
Proof.
  intros H.
  paths; read_trace; simplify_eq; auto; right; right; eauto.
Qed.

Lemma t3kFetch_errors_seen_by_caller_witness :
  AUTH_FAILED = NO_ACCESS_TOKEN
  \/ AUTH_FAILED = AUTH_FAILED
  \/ exists req,
       first (is_get Scenario.url)
         (effects (Scenario.revoked 4595000) Scenario.url Scenario.store)
       = Some (EvFetch req (Reject AUTH_FAILED))
       /\ last (effects (Scenario.revoked 4595000) Scenario.url Scenario.store)
          = Some (EvFetch req (Reject AUTH_FAILED)).
Proof.
  apply (t3kFetch_errors_seen_by_caller
           (Scenario.revoked 4595000) Scenario.url Scenario.store AUTH_FAILED).
  vm_compute. reflexivity.
Defined.

Ltac use_reply H :=
  repeat match goal with
    | E : ok _ = _ |- _ => rewrite E in H
    | E : payload _ = _ |- _ => rewrite E in H
    end.

(** A refresh that fails in transit, or whose 2xx answer carries no
    document (a body that is no JSON, or [null]), fails the call but does
    not log the user out: it is the last effect, nothing is removed, the
    page is not redirected, and the store is as the effects before it
    left it, access token included. *)
Theorem t3kFetch_unusable_refresh_keeps_session env url ls pre req rep post :
  effects env url ls = pre ++ EvFetch req rep :: post ->
  is_refresh_post env (EvFetch req rep) = true ->
  refresh_unusable rep = true ->
  outcome env url ls = Throw AUTH_FAILED
  /\ post = []
  /\ count is_remove (effects env url ls) = 0%nat
  /\ href_after env url ls = None
  /\ store_after env url ls = replay pre ls
  /\ is_Some (store_after env url ls !! "tone3000_access_token").
Proof.
  intros Htr Hpost Hbad.
  paths; read_trace; split_at Htr; simplify_eq; read_trace;
    try discriminate;
    unfold refresh_unusable in Hbad; use_reply Hbad; cbn in Hbad;
    try discriminate;
    repeat split; try reflexivity; simplify_map_eq; eauto.
Qed.

Lemma t3kFetch_unusable_refresh_keeps_session_witness :
  outcome
    (Cases.offline 4595000)
    Scenario.url Scenario.store
  = Throw AUTH_FAILED
  /\ store_after
       (Cases.offline 4595000)
       Scenario.url Scenario.store
     = Scenario.store.
Proof.
  destruct (t3kFetch_unusable_refresh_keeps_session
    (Cases.offline 4595000)
    Scenario.url Scenario.store
    [EvGetItem "tone3000_access_token" (Some "A1");
     EvGetItem "tone3000_expires_at" (Some "4600000");
     EvDateNow 4595000;
     EvGetItem "tone3000_refresh_token" (Some "R1")]
    (refresh_request (Cases.offline 4595000) "R1" "A1")
    (Reject (TypeError "Failed to fetch")) [])
    as (H1 & _ & _ & _ & H2 & _).
  - vm_compute. reflexivity.
  - vm_compute. reflexivity.
  - reflexivity.
  - exact (conj H1 H2).
Defined.

(** The token entries change together: after any call the store is the
    one the call started from, or the three entries are gone and the page
    is on its way to the login URL, or the three entries come from one
    and the same document [N], received in a 2xx answer during the call:
    the two tokens of [N], and an expiry that is a clock reading of the
    call plus [N.expires_in * 1000] (on safe integers). *)
Theorem t3kFetch_tokens_replaced_together env url ls :
  store_after env url ls = ls
  \/ (store_after env url ls !! "tone3000_access_token" = None
      /\ store_after env url ls !! "tone3000_refresh_token" = None
      /\ store_after env url ls !! "tone3000_expires_at" = None
      /\ href_after env url ls = Some (login_url env))
  \/ exists req rr N T,
       In (EvFetch req (Resolve rr)) (effects env url ls)
       /\ ok rr = true
       /\ payload rr = SessionJson N
       /\ In (EvDateNow T) (effects env url ls)
       /\ store_after env url ls !! "tone3000_access_token"
          = Some (access_token N)
       /\ store_after env url ls !! "tone3000_refresh_token"
          = Some (refresh_token N)
       /\ exists v,
            store_after env url ls !! "tone3000_expires_at" = Some v
            /\ forall E,
                 expires_in N = JS.Num E -> exact_expiry T E ->
                 v = JS.String_ (T + E * 1000).
Proof.
  paths; read_trace;
    first
      [ left; reflexivity
      | right; left; repeat split; try reflexivity; by simplify_map_eq
      | right; right; eexists _, _, _, _;
        refine (conj _ (conj _ (conj _ (conj _ (conj _ (conj _ _))))));
        revgoals;
        [ eexists; split;
          [ rewrite lookup_insert_eq; reflexivity
          | let HE := fresh in intros ? HE _; rewrite HE; reflexivity ]
        | rewrite lookup_insert_ne by discriminate;
          rewrite lookup_insert_eq; reflexivity
        | do 2 (rewrite lookup_insert_ne by discriminate);
          rewrite lookup_insert_eq; reflexivity
        | solve_in
        | eassumption
        | eassumption
        | solve_in ] ].
Qed.



(** When the retried GET is itself rejected in transit, the caller gets
    the authentication-failed error, yet the page is not redirected and
    the store keeps the document [N] that the refresh endpoint answered
    with: the GET that was lost carried [Bearer N.access_token], and the
    token entries hold the tokens of [N]. *)
Theorem t3kFetch_failed_retry_keeps_new_session env url ls req e :
  last (effects env url ls) = Some (EvFetch req (Reject e)) ->
  count (is_get url) (effects env url ls) = 2%nat ->
  outcome env url ls = Throw AUTH_FAILED
  /\ href_after env url ls = None
  /\ exists rq rr N,
       In (EvFetch rq (Resolve rr)) (effects env url ls)
       /\ is_refresh_post env (EvFetch rq (Resolve rr)) = true
       /\ ok rr = true
       /\ payload rr = SessionJson N
       /\ req = {| req_url := url;
                   req_method := GET;
                   req_headers :=
                     [("Authorization", "Bearer " +:+ access_token N);
                      ("Content-Type", "application/json")];
                   req_body := None |}
       /\ store_after env url ls !! "tone3000_access_token"
          = Some (access_token N)
       /\ store_after env url ls !! "tone3000_refresh_token"
          = Some (refresh_token N)
       /\ is_Some (store_after env url ls !! "tone3000_expires_at").
Proof.
  intros Hlast Hcount.
  paths; read_trace; simplify_eq;
    (split; [reflexivity|]); (split; [reflexivity|]);
    (eexists _, _, _;
     refine (conj _ (conj _ (conj _ (conj _ (conj _ (conj _ (conj _ _)))))));
     revgoals;
     [ rewrite lookup_insert_eq; eauto
     | by simplify_map_eq
     | by simplify_map_eq
     | reflexivity
     | eassumption
     | eassumption
     |
     | solve_in ];
     read_trace; reflexivity).
Qed.

Lemma t3kFetch_failed_retry_keeps_new_session_witness :
  outcome (Cases.retry_lost 1010000) Scenario.url Scenario.store
  = Throw AUTH_FAILED
  /\ href_after (Cases.retry_lost 1010000) Scenario.url Scenario.store = None
  /\ exists rq rr N,
       In (EvFetch rq (Resolve rr))
         (effects (Cases.retry_lost 1010000) Scenario.url Scenario.store)
       /\ is_refresh_post (Cases.retry_lost 1010000) (EvFetch rq (Resolve rr))
          = true
       /\ ok rr = true
       /\ payload rr = SessionJson N
       /\ get_request Scenario.url "A2"
          = {| req_url := Scenario.url;
               req_method := GET;
               req_headers :=
                 [("Authorization", "Bearer " +:+ access_token N);
                  ("Content-Type", "application/json")];
               req_body := None |}
       /\ store_after (Cases.retry_lost 1010000) Scenario.url Scenario.store
            !! "tone3000_access_token" = Some (access_token N)
       /\ store_after (Cases.retry_lost 1010000) Scenario.url Scenario.store
            !! "tone3000_refresh_token" = Some (refresh_token N)
       /\ is_Some
            (store_after (Cases.retry_lost 1010000) Scenario.url Scenario.store
               !! "tone3000_expires_at").
Proof.
  apply (t3kFetch_failed_retry_keeps_new_session
           (Cases.retry_lost 1010000) Scenario.url Scenario.store
           (get_request Scenario.url "A2") (TypeError "Failed to fetch")).
  - vm_compute. reflexivity.
  - vm_compute. reflexivity.
Defined.

(** *** The handlers *)

Ltac red_app H :=
  cbv beta iota zeta delta
    [run t3kFetch handleAuth App_mount handleLogin show_document
     downloadModel await bind ret throw try_catch getItem setItem
     removeItem set_location_href emit await_json Date_now fetch log
     with_storage fresh localStorage location_href trace clock_reads fetches
     JS.truthy JS.gt JS.sub negb str app] in H.

Ltac step_app H :=
  red_app H; simpl_lookups H;
  lazymatch type of H with
  | _ = ?t =>
      let c := head t in
      lazymatch c with
      | (_, _) => fail
      | _ => revert H; destruct c eqn:?; intros H
      end
  end.

Ltac paths_app t :=
  let R := fresh "R" in
  let HR := fresh "HR" in
  remember t as R eqn:HR;
  repeat step_app HR; subst R; to_prop.

Lemma listing_shape env J json url h :
  listing env J json url h ->
  exists fallback, h = show_document env J json url fallback.
Proof. destruct 1; eexists; reflexivity. Qed.

Lemma run_without_token env url ls :
  JS.truthy (ls !! "tone3000_access_token") = false ->
  run env url ls
  = (Throw NO_ACCESS_TOKEN,
     {| localStorage := ls;
        location_href := None;
        trace := [EvGetItem "tone3000_access_token"
                    (ls !! "tone3000_access_token");
                  EvGetItem "tone3000_expires_at"
                    (ls !! "tone3000_expires_at")];
        clock_reads := 0;
        fetches := 0 |}).
Proof.
  intros Hfalsy.
  unfold run, t3kFetch, bind, getItem, log, fresh; cbn.
  rewrite Hfalsy. reflexivity.
Qed.

Lemma listing_shows_data_or_error_aux env J json url fallback ls :
  exists v,
    show_document env J json url fallback (fresh ls)
    = (Ok v, snd (run env url ls)).
Proof.
  unfold show_document, try_catch, bind, run.
  destruct (t3kFetch env url (fresh ls)) as [[r|e] w']; cbn.
  - destruct (ok r); cbn.
    + unfold await. destruct (json r) as [d|e]; cbn; eexists; reflexivity.
    + eexists; reflexivity.
  - eexists; reflexivity.
Qed.


(** Without an access token a listing handler shows
    "No access token available" and makes no network call. *)
Theorem listing_without_token env J json url h ls :
  listing env J json url h ->
  JS.truthy (ls !! "tone3000_access_token") = false ->
  fst (h (fresh ls))
  = Ok {| data := None; error := Some "No access token available" |}
  /\ count is_fetch (trace (snd (h (fresh ls)))) = 0%nat
  /\ localStorage (snd (h (fresh ls))) = ls.
Proof.
  intros Hh Hfalsy. apply listing_shape in Hh as [fallback ->].
  unfold show_document, try_catch, bind.
  change (t3kFetch env url (fresh ls)) with (run env url ls).
  rewrite (run_without_token env url ls Hfalsy). cbn. auto.
Qed.

Lemma listing_without_token_witness :
  fst (handleSearch (Scenario.healthy 1010000) string Cases.text "fuzz"
         (fresh ∅))
  = Ok {| data := None; error := Some "No access token available" |}.
Proof.
  apply (listing_without_token (Scenario.healthy 1010000) string Cases.text
           _ _ ∅ (listing_search _ _ _ "fuzz")).
  vm_compute. reflexivity.
Defined.

(** When the response [t3kFetch] returns is not a 2xx one, a persistent
    401 included, the user sees "HTTP error! status: " followed by the
    status in decimal, and no data. *)
Theorem listing_http_error env J json url h ls r :
  listing env J json url h ->
  outcome env url ls = Ok r ->
  ok r = false ->
  fst (h (fresh ls))
  = Ok {| data := None;
          error := Some ("HTTP error! status: " +:+ JS.String_ (status r)) |}.
Proof.
  intros Hh Hout Hok. apply listing_shape in Hh as [fallback ->].
  unfold outcome, run in Hout.
  unfold show_document, try_catch, bind.
  destruct (t3kFetch env url (fresh ls)) as [[r'|e] w']; cbn in *;
    simplify_eq.
  rewrite Hok. reflexivity.
Qed.

Lemma listing_http_error_witness :
  fst (handleGetUser (Scenario.always_401 1010000) string Cases.text
         (fresh Scenario.store))
  = Ok {| data := None; error := Some "HTTP error! status: 401" |}.
Proof.
  apply (listing_http_error (Scenario.always_401 1010000) string Cases.text
           _ _ Scenario.store {| status := 401; payload := Opaque "ok" |}
           (listing_user _ _ _)).
  - vm_compute. reflexivity.
  - reflexivity.
Defined.

(** *** [downloadModel] *)

Lemma split_not_nil sep s : split sep s <> [].
Proof.
  destruct s as [|c s]; cbn; [discriminate|].
  destruct (Ascii.eqb c sep); [discriminate|].
  destruct (split sep s); discriminate.
Qed.

Lemma join_cons sep p rest :
  rest <> [] -> join sep (p :: rest) = p +:+ String sep (join sep rest).
Proof. destruct rest; [congruence | reflexivity]. Qed.

(** [s.split(sep).join(sep) === s] *)
Lemma join_split sep s : join sep (split sep s) = s.
Proof.
  induction s as [|c s IH]; [reflexivity|].
  pose proof (split_not_nil sep s) as Hnil.
  cbn [split]. destruct (Ascii.eqb_spec c sep) as [->|Hne].
  - rewrite join_cons by assumption. rewrite IH. reflexivity.
  - destruct (split sep s) as [|p ps]; [congruence|].
    destruct ps as [|q qs].
    + cbn in IH |- *. now rewrite IH.
    + rewrite join_cons by discriminate.
      rewrite join_cons in IH by discriminate.
      rewrite <- IH. reflexivity.
Qed.

Lemma split_pieces_lack_sep sep s :
  Forall (fun piece => has_char sep piece = false) (split sep s).
Proof.
  induction s as [|c s IH]; cbn [split].
  - repeat constructor.
  - destruct (Ascii.eqb c sep) eqn:Hc.
    + constructor; [reflexivity | exact IH].
    + destruct (split sep s) as [|p ps];
        [repeat constructor; cbn; now rewrite Hc|].
      inversion IH; subst.
      constructor; [cbn; rewrite Hc; assumption | assumption].
Qed.

Lemma append_sep_assoc a sep x :
  (a +:+ String sep EmptyString) +:+ x = a +:+ String sep x.
Proof.
  induction a as [|c a IH]; [reflexivity | exact (f_equal (String c) IH)].
Qed.

Lemma join_snoc sep ps x :
  ps <> [] -> join sep (ps ++ [x]) = join sep ps +:+ String sep x.
Proof.
  induction ps as [|p ps IH]; [congruence|]. intros _.
  destruct ps as [|q qs]; [reflexivity|].
  change ((p :: q :: qs) ++ [x]) with (p :: ((q :: qs) ++ [x])).
  rewrite join_cons by (destruct qs; discriminate).
  rewrite IH by discriminate.
  rewrite (join_cons sep p (q :: qs)) by discriminate.
  generalize (join sep (q :: qs)). intros t.
  clear. induction p as [|c p IHp];
    [reflexivity | exact (f_equal (String c) IHp)].
Qed.

(** The name under which a model is saved is what follows the last slash
    of its URL: the URL is some prefix, empty or ending in a slash, then
    the name, and the name holds no slash. *)
Theorem file_name_is_last_segment url :
  exists pre,
    url = pre +:+ file_name url
    /\ (pre = EmptyString \/ exists p, pre = p +:+ "/")
    /\ has_char "/" (file_name url) = false.
Proof.
  unfold file_name.
  pose proof (split_not_nil "/" url) as Hnil.
  pose proof (join_split "/" url) as Hjoin.
  pose proof (split_pieces_lack_sep "/" url) as Hall.
  destruct (exists_last Hnil) as (l & p & E). rewrite E in *. clear E Hnil.
  rewrite last_snoc. cbn [str].
  apply Forall_app in Hall as [_ Hp]. rewrite Forall_singleton in Hp.
  destruct l as [|q qs].
  - exists EmptyString. cbn in Hjoin. subst p. auto.
  - rewrite join_snoc in Hjoin by discriminate.
    exists (join "/" (q :: qs) +:+ "/").
    rewrite append_sep_assoc. eauto.
Qed.

(** A download never throws and adds nothing to the effects of
    [t3kFetch]. A file is saved only when [t3kFetch] returned a 2xx
    response, its body could be read and a URL had been typed: it is then
    saved under the last segment of the URL and the view is left as it
    was, so an error shown before stays on screen. In every other case
    nothing is saved, an error is shown and the data is cleared. *)
Theorem downloadModel_saves_only_on_success env J B blob url (v : View J) ls :
  exists v' saved,
    downloadModel env J B blob url v (fresh ls)
    = (Ok (v', saved), snd (run env (str url) ls))
    /\ (forall d,
          saved = Some d ->
          v' = v
          /\ exists r u b,
               outcome env (str url) ls = Ok r
               /\ ok r = true
               /\ blob r = Ok b
               /\ url = Some u
               /\ d = {| saved_blob := b; download := file_name u |})
    /\ (saved = None -> data v' = None /\ error v' <> None)
    /\ (forall r u b,
          outcome env (str url) ls = Ok r ->
          ok r = true ->
          blob r = Ok b ->
          url = Some u ->
          saved = Some {| saved_blob := b; download := file_name u |}).
Proof.
  unfold downloadModel, try_catch, bind, outcome, run.
  destruct (t3kFetch env (str url) (fresh ls)) as [[r|e] w']; cbn.
  - destruct (ok r) eqn:Hok; cbn.
    + unfold await. destruct (blob r) as [b|e] eqn:Hb; cbn.
      * destruct url as [u|]; cbn; eexists _, _; (split; [reflexivity|]);
          repeat split; intros; simplify_eq; eauto 10;
          try discriminate; congruence.
      * eexists _, _; (split; [reflexivity|]);
          repeat split; intros; simplify_eq; eauto;
          try discriminate; congruence.
    + eexists _, _; (split; [reflexivity|]);
        repeat split; intros; simplify_eq; eauto;
        try discriminate; congruence.
  - eexists _, _; (split; [reflexivity|]);
      repeat split; intros; simplify_eq; eauto; discriminate.
Qed.
(** *** [handleSearch] and [encodeURIComponent] *)

Lemma below_16 (P : N -> Prop) :
  (forall k, (k < 16)%nat -> P (N.of_nat k)) ->
  forall n, (n < 16)%N -> P n.
Proof.
  intros HP n Hn. rewrite <- (N2Nat.id n). apply HP. lia.
Qed.

Lemma hex_char_unreserved n :
  (n < 16)%N -> JS.is_unreserved (JS.hex_char n) = true.
Proof.
  revert n. apply below_16. intros k Hk.
  do 16 (destruct k as [|k]; [reflexivity|]). lia.
Qed.

Lemma hex_value_hex_char n : (n < 16)%N -> hex_value (JS.hex_char n) = n.
Proof.
  revert n. apply below_16. intros k Hk.
  do 16 (destruct k as [|k]; [reflexivity|]). lia.
Qed.

Lemma hex_char_inj a b :
  (a < 16)%N -> (b < 16)%N -> JS.hex_char a = JS.hex_char b -> a = b.
Proof.
  intros Ha Hb H.
  rewrite <- (hex_value_hex_char a Ha), <- (hex_value_hex_char b Hb), H.
  reflexivity.
Qed.

Lemma encodeURIComponent_safe s :
  Forall (fun c => uri_safe c = true)
    (list_ascii_of_string (JS.encodeURIComponent s)).
Proof.
  induction s as [|c s IH]; cbn [JS.encodeURIComponent list_ascii_of_string].
  - constructor.
  - destruct (JS.is_unreserved c) eqn:Hc; cbn [list_ascii_of_string].
    + constructor; [unfold uri_safe; now rewrite Hc | exact IH].
    + pose proof (N_ascii_bounded c) as Hb.
      constructor; [reflexivity|].
      constructor.
      { unfold uri_safe. rewrite hex_char_unreserved; [reflexivity|].
        apply N.Div0.div_lt_upper_bound. lia. }
      constructor; [|exact IH].
      unfold uri_safe. rewrite hex_char_unreserved; [reflexivity|].
      apply N.mod_lt. lia.
Qed.

Lemma encodeURIComponent_inj s1 s2 :
  JS.encodeURIComponent s1 = JS.encodeURIComponent s2 -> s1 = s2.
Proof.
  revert s2. induction s1 as [|c1 s1 IH]; intros [|c2 s2];
    cbn [JS.encodeURIComponent]; intros H.
  - reflexivity.
  - destruct (JS.is_unreserved c2); discriminate.
  - destruct (JS.is_unreserved c1); discriminate.
  - destruct (JS.is_unreserved c1) eqn:H1, (JS.is_unreserved c2) eqn:H2.
    + injection H as -> H. f_equal. auto.
    + injection H as -> _. discriminate H1.
    + injection H as <- _. discriminate H2.
    + injection H as Hhi Hlo H.
      pose proof (N_ascii_bounded c1) as B1.
      pose proof (N_ascii_bounded c2) as B2.
      apply hex_char_inj in Hhi;
        [| apply N.Div0.div_lt_upper_bound; lia
         | apply N.Div0.div_lt_upper_bound; lia ].
      apply hex_char_inj in Hlo; [| apply N.mod_lt; lia | apply N.mod_lt; lia ].
      assert (N_of_ascii c1 = N_of_ascii c2) as Hn.
      { rewrite (N.div_mod (N_of_ascii c1) 16), (N.div_mod (N_of_ascii c2) 16)
          by lia. congruence. }
      f_equal; [|auto].
      rewrite <- (ascii_N_embedding c1), <- (ascii_N_embedding c2).
      now rewrite Hn.
Qed.

Lemma append_inj_r a x y : a +:+ x = a +:+ y -> x = y.
Proof.
  induction a as [|c a IH]; intros H; [exact H|].
  apply IH. change (String c (a +:+ x) = String c (a +:+ y)) in H.
  congruence.
Qed.

(** What the user types into the search box cannot leave the [query]
    parameter: the URL fetched is the fixed search endpoint followed by
    characters that are unreserved or [%] only (no [&], [=], [#], [/] or
    space from the input), and two different inputs never give the same
    URL. *)
Theorem handleSearch_query_confined env J json query ls :
  snd (handleSearch env J json query (fresh ls))
  = snd (run env (API_DOMAIN env +:+ "/api/v1/tones/search?query="
                  +:+ JS.encodeURIComponent query) ls)
  /\ Forall (fun c => uri_safe c = true)
       (list_ascii_of_string (JS.encodeURIComponent query))
  /\ forall query',
       API_DOMAIN env +:+ "/api/v1/tones/search?query="
         +:+ JS.encodeURIComponent query'
       = API_DOMAIN env +:+ "/api/v1/tones/search?query="
         +:+ JS.encodeURIComponent query ->
       query' = query.
Proof.
  split; [|split].
  - destruct (listing_shows_data_or_error_aux env J json
                (API_DOMAIN env +:+ "/api/v1/tones/search?query="
                 +:+ JS.encodeURIComponent query) "Failed to search" ls)
      as (v & Hv).
    change (handleSearch env J json query) with
      (show_document env J json
         (API_DOMAIN env +:+ "/api/v1/tones/search?query="
          +:+ JS.encodeURIComponent query) "Failed to search").
    now rewrite Hv.
  - apply encodeURIComponent_safe.
  - intros query' H. apply encodeURIComponent_inj.
    eapply append_inj_r, append_inj_r. exact H.
Qed.

(** *** [handleAuth] and the mount effect *)


(** Mounted with an [api_key] in the address bar, the component caches
    the key before anything else and the cache survives whatever the
    exchange does; the effect itself never throws; and the component is
    flagged logged in exactly when the exchange was answered 2xx with a
    JSON document other than [null], whatever the document holds. *)
Theorem App_mount_with_api_key env apiKey pathname ls :
  apiKey <> EmptyString ->
  fst (App_mount env (Some apiKey) pathname (fresh ls)) = Ok tt
  /\ first (fun _ => true)
       (trace (snd (App_mount env (Some apiKey) pathname (fresh ls))))
     = Some (EvSetItem "tone3000_api_key" apiKey)
  /\ localStorage (snd (App_mount env (Some apiKey) pathname (fresh ls)))
       !! "tone3000_api_key" = Some apiKey
  /\ (count is_login
        (trace (snd (App_mount env (Some apiKey) pathname (fresh ls))))
      = 1%nat
      <-> exists r N,
            fetch_reply env 0 (session_request env apiKey) = Resolve r
            /\ ok r = true /\ payload r = SessionJson N)
  /\ (count is_login
        (trace (snd (App_mount env (Some apiKey) pathname (fresh ls))))
      = 0%nat ->
      forall k, k <> "tone3000_api_key" ->
        localStorage (snd (App_mount env (Some apiKey) pathname (fresh ls)))
          !! k = ls !! k).
Proof.
  intros Hkey.
  paths_app (App_mount env (Some apiKey) pathname (fresh ls));
    try congruence;
    change {| req_url := API_DOMAIN env +:+ "/api/v1/auth/session";
              req_method := POST;
              req_headers := [];
              req_body := Some [("api_key", apiKey)] |}
      with (session_request env apiKey) in *;
    cbn [fst snd trace localStorage first count is_login];
    (split; [reflexivity|]); (split; [reflexivity|]);
    (split; [by simplify_map_eq|]);
    (split; [split; [intros; try discriminate; eauto
                    | intros (r' & N' & ? & ? & ?); congruence]
            | intros; try discriminate;
              rewrite lookup_insert_ne by congruence; reflexivity]).
Qed.

Lemma App_mount_with_api_key_witness :
  count is_login
    (trace (snd (App_mount (Cases.untyped 1010000) (Some "K9") "/"
                   (fresh Scenario.store))))
  = 1%nat
  <-> exists r N,
        fetch_reply (Cases.untyped 1010000) 0
          (session_request (Cases.untyped 1010000) "K9") = Resolve r
        /\ ok r = true /\ payload r = SessionJson N.
Proof.
  apply (App_mount_with_api_key (Cases.untyped 1010000) "K9" "/" Scenario.store).
  vm_compute. discriminate.
Defined.
Lemma App_mount_stored_token env apiKey pathname ls :
  JS.truthy apiKey = false ->
  App_mount env apiKey pathname (fresh ls)
  = (Ok tt,
     {| localStorage := ls;
        location_href := None;
        trace :=
          EvGetItem "tone3000_access_token" (ls !! "tone3000_access_token")
          :: (if JS.truthy (ls !! "tone3000_access_token")
              then [EvSetIsLoggedIn true] else []);
        clock_reads := 0;
        fetches := 0 |}).
Proof.
  intros Hkey. unfold App_mount. rewrite Hkey.
  unfold bind, getItem, emit, ret, log, fresh; cbn.
  destruct (JS.truthy (ls !! "tone3000_access_token")); reflexivity.
Qed.

(** Mounted without an [api_key], the component decides from the store
    alone: it reads the access token, flags itself logged in exactly
    when that entry is non-empty, whatever the expiry or the refresh
    token, and touches neither the network, the clock nor the store. *)
Theorem App_mount_trusts_stored_token env apiKey pathname ls :
  JS.truthy apiKey = false ->
  App_mount env apiKey pathname (fresh ls)
  = (Ok tt,
     {| localStorage := ls;
        location_href := None;
        trace :=
          EvGetItem "tone3000_access_token" (ls !! "tone3000_access_token")
          :: (if JS.truthy (ls !! "tone3000_access_token")
              then [EvSetIsLoggedIn true] else []);
        clock_reads := 0;
        fetches := 0 |}).
Proof.
  intros Hkey. unfold App_mount. rewrite Hkey.
  unfold bind, getItem, emit, ret, log, fresh; cbn.
  destruct (JS.truthy (ls !! "tone3000_access_token")); reflexivity.
Qed.

Lemma App_mount_trusts_stored_token_witness :
  count is_login
    (trace (snd (App_mount (Cases.offline 9999999999) None "/"
                   (fresh Scenario.no_refresh_token)))) = 1%nat.
Proof.
  rewrite (App_mount_trusts_stored_token (Cases.offline 9999999999) None "/"
             Scenario.no_refresh_token).
  - vm_compute. reflexivity.
  - reflexivity.
Defined.

(** *** Calls in sequence *)

Lemma String__not_empty z : JS.String_ z <> EmptyString.
Proof.
  intros H. pose proof (parseInt_String_ z) as Hp.
  rewrite H in Hp. discriminate Hp.
Qed.

Lemma parse_stored_expiry z :
  JS.parseInt (JS.or_else (Some (JS.String_ z)) "0") = JS.Num z.
Proof.
  unfold JS.or_else.
  destruct (String.eqb_spec (JS.String_ z) EmptyString) as [H|_].
  - destruct (String__not_empty z H).
  - apply parseInt_String_.
Qed.

Lemma redirect_clears_access_token env url ls target :
  href_after env url ls = Some target ->
  store_after env url ls !! "tone3000_access_token" = None.
Proof. intros H. paths; read_trace; simplify_eq; by simplify_map_eq. Qed.

(** The expiry written at login is the expiry the next call reads: after
    a successful exchange at clock reading [T] for a document [N] with
    lifetime [E], the store holds the tokens of [N] and [T + E * 1000];
    a call at a reading up to [T + E * 1000 - 30000] starts with the GET
    carrying [Bearer N.access_token]; a later one starts by posting
    [N.refresh_token] and [N.access_token] to the refresh endpoint. *)
Theorem login_then_fetch env apiKey pathname ls r N E env' url :
  fetch_reply env 0 (session_request env apiKey) = Resolve r ->
  ok r = true ->
  payload r = SessionJson N ->
  expires_in N = JS.Num E ->
  exact_expiry (clock env 0) E ->
  JS.safe (clock env 0 + E * 1000 - 30000) ->
  access_token N <> EmptyString ->
  localStorage (snd (handleAuth env apiKey pathname (fresh ls)))
    !! "tone3000_access_token" = Some (access_token N)
  /\ localStorage (snd (handleAuth env apiKey pathname (fresh ls)))
       !! "tone3000_refresh_token" = Some (refresh_token N)
  /\ localStorage (snd (handleAuth env apiKey pathname (fresh ls)))
       !! "tone3000_expires_at" = Some (JS.String_ (clock env 0 + E * 1000))
  /\ (clock env' 0 <= clock env 0 + E * 1000 - 30000 ->
      exists rep,
        first is_fetch
          (effects env' url
             (localStorage (snd (handleAuth env apiKey pathname (fresh ls)))))
        = Some (EvFetch
                  {| req_url := url;
                     req_method := GET;
                     req_headers :=
                       [("Authorization", "Bearer " +:+ access_token N);
                        ("Content-Type", "application/json")];
                     req_body := None |} rep))
  /\ (clock env' 0 > clock env 0 + E * 1000 - 30000 ->
      refresh_token N <> EmptyString ->
      exists rep,
        first is_fetch
          (effects env' url
             (localStorage (snd (handleAuth env apiKey pathname (fresh ls)))))
        = Some (EvFetch
                  {| req_url :=
                       API_DOMAIN env' +:+ "/api/v1/auth/session/refresh";
                     req_method := POST;
                     req_headers := [("Content-Type", "application/json")];
                     req_body := Some [("refresh_token", refresh_token N);
                                       ("access_token", access_token N)] |}
                  rep)).
Proof.
  intros Hreply Hok Hpay HE _ _ Htok.
  assert (Hstore :
    localStorage (snd (handleAuth env apiKey pathname (fresh ls)))
    = <["tone3000_expires_at" := JS.String_ (clock env 0 + E * 1000)]>
        (<["tone3000_refresh_token" := refresh_token N]>
           (<["tone3000_access_token" := access_token N]> ls))).
  { paths_app (handleAuth env apiKey pathname (fresh ls));
      change {| req_url := API_DOMAIN env +:+ "/api/v1/auth/session";
                req_method := POST;
                req_headers := [];
                req_body := Some [("api_key", apiKey)] |}
        with (session_request env apiKey) in *;
      merge_eqs; try congruence;
      rewrite HE; reflexivity. }
  rewrite Hstore. clear Hstore.
  split; [by simplify_map_eq|].
  split; [by simplify_map_eq|].
  split; [by simplify_map_eq|].
  paths; read_trace;
    repeat match goal with
      | H : JS.parseInt (JS.or_else (Some (JS.String_ _)) _) = _ |- _ =>
          rewrite parse_stored_expiry in H
      end;
    simplify_eq; try congruence;
    split; intros; try lia; try congruence; eexists; reflexivity.
Qed.

Lemma login_then_fetch_witness :
  exists rep,
    first is_fetch
      (effects (Scenario.healthy 1010000) Scenario.url
         (localStorage
            (snd (handleAuth (Scenario.healthy 1000000) "K1" "/" (fresh ∅)))))
    = Some (EvFetch
              {| req_url := Scenario.url;
                 req_method := GET;
                 req_headers :=
                   [("Authorization", "Bearer " +:+ access_token Scenario.S2);
                    ("Content-Type", "application/json")];
                 req_body := None |} rep).
Proof.
  refine (proj1 (proj2 (proj2 (proj2
    (login_then_fetch (Scenario.healthy 1000000) "K1" "/" ∅
       {| status := 200; payload := SessionJson Scenario.S2 |}
       Scenario.S2 3600 (Scenario.healthy 1010000) Scenario.url
       _ _ _ _ _ _ _)))) _).
  - reflexivity.
  - reflexivity.
  - reflexivity.
  - reflexivity.
  - unfold exact_expiry, JS.safe, JS.MAX_SAFE_INTEGER. vm_compute.
    repeat split; discriminate.
  - unfold JS.safe, JS.MAX_SAFE_INTEGER. vm_compute. split; discriminate.
  - vm_compute. discriminate.
  - vm_compute. discriminate.
Defined.
(** After a call that redirected to the login page, the store holds no
    access token: the next call fails with "No access token available"
    without touching the network, and a reload of the page without an
    [api_key] does not flag the component logged in. *)
Theorem logged_out_after_redirect env url ls target env' url' pathname :
  href_after env url ls = Some target ->
  outcome env' url' (store_after env url ls) = Throw NO_ACCESS_TOKEN
  /\ count is_fetch (effects env' url' (store_after env url ls)) = 0%nat
  /\ count is_login
       (trace (snd (App_mount env' None pathname
                      (fresh (store_after env url ls))))) = 0%nat.
Proof.
  intros H. apply redirect_clears_access_token in H.
  revert H. generalize (store_after env url ls). intros m H.
  unfold outcome, effects.
  rewrite run_without_token by (now rewrite H).
  rewrite (App_mount_stored_token env' None pathname m eq_refl).
  rewrite H. auto.
Qed.

Lemma logged_out_after_redirect_witness :
  outcome (Scenario.healthy 4595000) Scenario.url
    (store_after (Scenario.revoked 4595000) Scenario.url Scenario.store)
  = Throw NO_ACCESS_TOKEN.
Proof.
  apply (logged_out_after_redirect
           (Scenario.revoked 4595000) Scenario.url Scenario.store
           (login_url (Scenario.revoked 4595000))
           (Scenario.healthy 4595000) Scenario.url "/").
  vm_compute. reflexivity.
Defined.

(** An expired access token without a refresh token is a dead end: the
    component mounts as logged in, every call fails with the
    authentication-failed error before any network call, and since the
    call leaves the store exactly as it was, so does every later one. *)
Theorem expired_without_refresh_token_is_stuck env url ls e pathname :
  JS.truthy (ls !! "tone3000_access_token") = true ->
  JS.truthy (ls !! "tone3000_refresh_token") = false ->
  JS.parseInt (JS.or_else (ls !! "tone3000_expires_at") "0") = JS.Num e ->
  clock env 0 > e - 30000 ->
  outcome env url ls = Throw AUTH_FAILED
  /\ count is_fetch (effects env url ls) = 0%nat
  /\ href_after env url ls = None
  /\ store_after env url ls = ls
  /\ count is_login
       (trace (snd (App_mount env None pathname
                      (fresh (store_after env url ls))))) = 1%nat.
Proof.
  intros Ha Hr He Hclock.
  assert (Hrun : outcome env url ls = Throw AUTH_FAILED
                 /\ count is_fetch (effects env url ls) = 0%nat
                 /\ href_after env url ls = None
                 /\ store_after env url ls = ls).
  { unfold JS.truthy in Ha, Hr.
    paths; read_trace; simplify_eq; try lia;
      cbn [negb] in *; try discriminate; try congruence; auto. }
  destruct Hrun as (H1 & H2 & H3 & H4).
  repeat (split; [assumption|]).
  rewrite H4.
  rewrite (App_mount_stored_token env None pathname ls eq_refl).
  rewrite Ha. reflexivity.
Qed.

Lemma expired_without_refresh_token_is_stuck_witness :
  outcome (Scenario.healthy 1010000) Scenario.url Scenario.no_refresh_token
  = Throw AUTH_FAILED
  /\ store_after (Scenario.healthy 1010000) Scenario.url
       Scenario.no_refresh_token
     = Scenario.no_refresh_token.
Proof.
  destruct (expired_without_refresh_token_is_stuck
    (Scenario.healthy 1010000) Scenario.url Scenario.no_refresh_token 0 "/")
    as (H1 & _ & _ & H2 & _).
  - vm_compute. reflexivity.
  - vm_compute. reflexivity.
  - vm_compute. reflexivity.
  - vm_compute. reflexivity.
  - exact (conj H1 H2).
Defined.

(** The login button without OTP leads to the very page a refused
    refresh redirects to; with OTP it adds [&otp_only=true]. Neither
    touches the store. *)
Theorem handleLogin_target env requireOtp w :
  location_href (snd (handleLogin env requireOtp w))
  = Some (login_url env
          +:+ (if requireOtp then "&otp_only=true" else EmptyString))
  /\ localStorage (snd (handleLogin env requireOtp w)) = localStorage w.
Proof.
  unfold handleLogin, set_location_href, log, login_url.
  cbn [snd location_href localStorage].
  split; [|reflexivity]. f_equal.
  generalize (API_DOMAIN env). intros a.
  induction a as [|c a IH]; [destruct requireOtp; reflexivity|].
  exact (f_equal (String c) IH).
Qed.

Lemma first_fetch_within_margin env url ls tok e :
  ls !! "tone3000_access_token" = Some tok ->
  tok <> EmptyString ->
  JS.parseInt (JS.or_else (ls !! "tone3000_expires_at") "0") = JS.Num e ->
  clock env 0 <= e - 30000 ->
  first is_fetch (effects env url ls)
  = Some (EvFetch (get_request url tok)
            (fetch_reply env 0 (get_request url tok))).
Proof.
  intros Ha Hne He Hclock.
  paths; read_trace; simplify_eq; try lia; congruence.
Qed.

(** A refreshed Session is picked up by the next call: when a call that
    wrote the store returns a response, the store holds the tokens of the
    document [N] of its last refresh, with the expiry computed from a
    clock reading [T] of that call, and a following call at a reading up
    to [T + N.expires_in * 1000 - 30000] starts with the GET carrying
    [Bearer N.access_token], without refreshing again. *)
Theorem refresh_then_fetch env url ls r0 env' url' :
  outcome env url ls = Ok r0 ->
  count is_write (effects env url ls) <> 0%nat ->
  exists N T,
    In (EvDateNow T) (effects env url ls)
    /\ (exists req rr,
          In (EvFetch req (Resolve rr)) (effects env url ls)
          /\ is_refresh_post env (EvFetch req (Resolve rr)) = true
          /\ ok rr = true
          /\ payload rr = SessionJson N)
    /\ store_after env url ls !! "tone3000_access_token"
       = Some (access_token N)
    /\ store_after env url ls !! "tone3000_refresh_token"
       = Some (refresh_token N)
    /\ forall E,
         expires_in N = JS.Num E ->
         exact_expiry T E ->
         JS.safe (T + E * 1000 - 30000) ->
         store_after env url ls !! "tone3000_expires_at"
         = Some (JS.String_ (T + E * 1000))
         /\ (access_token N <> EmptyString ->
             clock env' 0 <= T + E * 1000 - 30000 ->
             exists rep,
               first is_fetch (effects env' url' (store_after env url ls))
               = Some (EvFetch
                         {| req_url := url';
                            req_method := GET;
                            req_headers :=
                              [("Authorization",
                                "Bearer " +:+ access_token N);
                               ("Content-Type", "application/json")];
                            req_body := None |} rep)).
Proof.
  intros Hout Hw.
  paths; read_trace; simplify_eq; try congruence;
    (eexists _, _;
     refine (conj _ (conj _ (conj _ (conj _ _)))); revgoals;
     [ let HE := fresh in
       intros E HE _ _; rewrite HE; cbn [JS.add JS.mul JS.String_num];
       split;
       [ rewrite lookup_insert_eq; reflexivity
       | intros Htok Hclock; eexists;
         eapply first_fetch_within_margin;
         [ do 2 (rewrite lookup_insert_ne by discriminate);
           rewrite lookup_insert_eq; reflexivity
         | exact Htok
         | rewrite lookup_insert_eq; apply parse_stored_expiry
         | exact Hclock ] ]
     | by simplify_map_eq
     | by simplify_map_eq
     | eexists _, _;
       refine (conj _ (conj _ (conj _ _))); revgoals;
       [ eassumption | eassumption | | solve_in ]; read_trace; reflexivity
     | solve_in ]).
Qed.

Lemma refresh_then_fetch_witness :
  exists N T,
    In (EvDateNow T)
      (effects (Scenario.healthy 4595000) Scenario.url Scenario.store)
    /\ store_after (Scenario.healthy 4595000) Scenario.url Scenario.store
         !! "tone3000_access_token" = Some (access_token N)
    /\ store_after (Scenario.healthy 4595000) Scenario.url Scenario.store
         !! "tone3000_refresh_token" = Some (refresh_token N).
Proof.
  destruct (refresh_then_fetch (Scenario.healthy 4595000) Scenario.url
              Scenario.store {| status := 200; payload := Opaque "ok" |}
              (Scenario.healthy 4600000) Scenario.url)
    as (N & T & H1 & _ & H2 & H3 & _).
  - vm_compute. reflexivity.
  - vm_compute. discriminate.
  - exists N, T. exact (conj H1 (conj H2 H3)).
Defined.

(** What is written as expiry is what is read as expiry: for a safe
    integer [z], the string stored by [setItem(..., String(z))] is never
    empty, so the ['0'] default does not apply, and [parseInt] gives [z]
    back. *)
Theorem stored_expiry_reads_back (ls : gmap string string) z :
  JS.safe z ->
  JS.parseInt
    (JS.or_else
       (<["tone3000_expires_at" := JS.String_ z]> ls !! "tone3000_expires_at")
       "0")
  = JS.Num z.
Proof. intros _. rewrite lookup_insert_eq. apply parse_stored_expiry. Qed.

Lemma stored_expiry_reads_back_witness :
  JS.parseInt
    (JS.or_else
       (<["tone3000_expires_at" := JS.String_ 4610001]> Scenario.store
          !! "tone3000_expires_at")
       "0")
  = JS.Num 4610001.
Proof.
  apply (stored_expiry_reads_back Scenario.store 4610001).
  unfold JS.safe, JS.MAX_SAFE_INTEGER. vm_compute. split; discriminate.
Defined.
